(** * AI DJ Persona client: HomePage and GalleryPage of [frontend/src/App.js]

    A shallow embedding of the two React components of the client and of the
    event handlers they install, followed by the properties of the view-state
    machine.

    Conventions of the embedding.
    - A JavaScript string is its sequence of UTF-16 code units.
    - A component's [useState] cells are the fields of a record; a setter
      replaces one field.  No handler of [App.js] reads a cell after it has
      called a setter, so applying a setter at once is the same as React's
      queued update followed by a re-render.
    - An [async] handler is cut at its single [await]: the part before it
      issues the request, the part after it is resumed with the settled
      promise (rejected or resolved) and runs inside the handler's own
      [try]/[catch]/[finally].
    - Side effects outside React (toasts, console, browser location and
      history, clipboard, issued requests) are fields of the [World].
    - JSX is a tree of [Node]s; purely presentational props ([className],
      [style], [variant], [size]) are left out. *)

From Stdlib Require Import List Arith NArith Bool String Ascii Lia DecimalString.
Import ListNotations.

Set Implicit Arguments.

(** ** JavaScript strings *)

Module JsString.

Definition jschar := N.
Definition jsstring := list jschar.

(** A source literal made of ASCII characters. *)
Definition lit (s : string) : jsstring :=
  map N_of_ascii (list_ascii_of_string s).

Fixpoint eqb (a b : jsstring) : bool :=
  match a, b with
  | [], [] => true
  | x :: a', y :: b' => N.eqb x y && eqb a' b'
  | _, _ => false
  end.

(** ECMAScript [WhiteSpace] and [LineTerminator] code points, the ones
    [String.prototype.trim] removes.  All of them lie in the BMP, so a
    test on one code unit is exact. *)
Definition is_js_whitespace (c : jschar) : bool :=
  (N.eqb c 0x0009 || N.eqb c 0x000A || N.eqb c 0x000B || N.eqb c 0x000C ||
   N.eqb c 0x000D || N.eqb c 0x0020 || N.eqb c 0x00A0 || N.eqb c 0x1680 ||
   (N.leb 0x2000 c && N.leb c 0x200A) ||
   N.eqb c 0x2028 || N.eqb c 0x2029 || N.eqb c 0x202F || N.eqb c 0x205F ||
   N.eqb c 0x3000 || N.eqb c 0xFEFF)%bool.

Fixpoint trimStart (s : jsstring) : jsstring :=
  match s with
  | [] => []
  | c :: s' => if is_js_whitespace c then trimStart s' else s
  end.

Definition trimEnd (s : jsstring) : jsstring := rev (trimStart (rev s)).

(** [s.trim()] *)
Definition trim (s : jsstring) : jsstring := trimEnd (trimStart s).

(** JavaScript truthiness of a string: only the empty string is falsy. *)
Definition truthy (s : jsstring) : bool :=
  match s with [] => false | _ :: _ => true end.

(** [Array.prototype.join] on an array of strings. *)
Fixpoint join (sep : jsstring) (l : list jsstring) : jsstring :=
  match l with
  | [] => []
  | [x] => x
  | x :: l' => x ++ sep ++ join sep l'
  end.

(** [String(n)] for a non-negative integer. *)
Definition of_nat (n : nat) : jsstring :=
  lit (NilEmpty.string_of_uint (Nat.to_uint n)).

(** The property the specification calls "empty or whitespace-only". *)
Definition whitespace_only (s : jsstring) : Prop :=
  Forall (fun c => is_js_whitespace c = true) s.

End JsString.
Import JsString.

(** ** Values crossing the network *)

(** A property of a JSON object as JavaScript reads it: absent
    ([undefined]), [null], or holding a value. *)
Inductive JsField (A : Type) : Type :=
| Absent
| JsNull
| Has (a : A).
Arguments Absent {A}.
Arguments JsNull {A}.
Arguments Has {A} a.

(** [x || ''] where [x] is a string property. *)
Definition or_empty (x : JsField jsstring) : jsstring :=
  match x with
  | Has s => if truthy s then s else []
  | _ => []
  end.

Record SpotifyData := mkSpotifyData {
  artists : JsField (list jsstring);
  genres : JsField (list jsstring);
  artists_text : JsField jsstring;
  genres_text : JsField jsstring
}.

Record Persona := mkPersona {
  dj_name : jsstring;
  bio : jsstring;
  palette : list jsstring;
  style_tags : list jsstring;
  logo_shape : jsstring
}.

Record GenerationResult := mkGenerationResult {
  session_id : jsstring;
  persona : Persona;
  prompts : list jsstring;
  uploaded_photos : JsField (list jsstring);
  image_urls : JsField (list jsstring)
}.

(** [response.data] of the four endpoints. *)
Record LoginData := mkLoginData { auth_url : jsstring }.
Record SessionData := mkSessionData { spotify_data : JsField SpotifyData }.
Record PromptsData := mkPromptsData { new_prompts : list jsstring }.

(** What axios rejects with: no response at all, or a status outside 2xx. *)
Inductive JsError :=
| NetworkError (message : jsstring)
| HttpError (status : N).

(** A settled promise. *)
Inductive Settled (A : Type) : Type :=
| Rejected (error : JsError)
| Resolved (data : A).
Arguments Rejected {A} error.
Arguments Resolved {A} data.

Inductive Request :=
| AxiosGet (url : jsstring)
| AxiosPost (url : jsstring)
| AxiosPostForm (url : jsstring) (formData : list (jsstring * jsstring)).

(** ** Component state and the world around it *)

(** The seven [useState] cells of [HomePage]. *)
Record HomeState := mkHome {
  spotifyData : option SpotifyData;
  loading : bool;
  sessionId : option jsstring;
  artistsText : jsstring;
  genresText : jsstring;
  generating : bool;
  result : option GenerationResult
}.

(** The two [useState] cells of one mounted [GalleryPage]. *)
Record GalleryState := mkGallery {
  regenerating : bool;
  shown_prompts : list jsstring
}.

Inductive ToastKind := ToastSuccess | ToastError | ToastInfo.

Record World := mkWorld {
  backend_url : jsstring;                     (* BACKEND_URL *)
  home : HomeState;
  gallery : option (nat * GalleryState);      (* mounted GalleryPage, with its instance number *)
  mounts : nat;                               (* GalleryPage instances mounted so far *)
  toasts : list (ToastKind * jsstring);       (* sonner notifications, oldest first *)
  console : list (jsstring * JsError);        (* console.error calls, oldest first *)
  requests : list Request;                    (* axios calls issued, oldest first *)
  location_pathname : jsstring;               (* window.location.pathname *)
  location_search : list (jsstring * jsstring); (* window.location.search as URLSearchParams lists it *)
  location_assigned : list jsstring;          (* assignments to window.location.href *)
  clipboard : option jsstring
}.

Definition initial_home : HomeState :=
  mkHome None false None [] [] false None.

(** A freshly loaded page at the given address. *)
Definition page_load (base path : jsstring) (query : list (jsstring * jsstring)) : World :=
  mkWorld base initial_home None 0 [] [] [] path query [] None.

Definition with_home (f : HomeState -> HomeState) (w : World) : World :=
  mkWorld (backend_url w) (f (home w)) (gallery w) (mounts w) (toasts w)
    (console w) (requests w) (location_pathname w) (location_search w)
    (location_assigned w) (clipboard w).

Definition with_gallery (g : option (nat * GalleryState)) (w : World) : World :=
  mkWorld (backend_url w) (home w) g (mounts w) (toasts w)
    (console w) (requests w) (location_pathname w) (location_search w)
    (location_assigned w) (clipboard w).

Definition with_mounts (n : nat) (w : World) : World :=
  mkWorld (backend_url w) (home w) (gallery w) n (toasts w)
    (console w) (requests w) (location_pathname w) (location_search w)
    (location_assigned w) (clipboard w).

Definition with_toasts (t : list (ToastKind * jsstring)) (w : World) : World :=
  mkWorld (backend_url w) (home w) (gallery w) (mounts w) t
    (console w) (requests w) (location_pathname w) (location_search w)
    (location_assigned w) (clipboard w).

Definition with_console (c : list (jsstring * JsError)) (w : World) : World :=
  mkWorld (backend_url w) (home w) (gallery w) (mounts w) (toasts w)
    c (requests w) (location_pathname w) (location_search w)
    (location_assigned w) (clipboard w).

Definition with_requests (r : list Request) (w : World) : World :=
  mkWorld (backend_url w) (home w) (gallery w) (mounts w) (toasts w)
    (console w) r (location_pathname w) (location_search w)
    (location_assigned w) (clipboard w).

Definition with_search (q : list (jsstring * jsstring)) (w : World) : World :=
  mkWorld (backend_url w) (home w) (gallery w) (mounts w) (toasts w)
    (console w) (requests w) (location_pathname w) q
    (location_assigned w) (clipboard w).

Definition with_assigned (a : list jsstring) (w : World) : World :=
  mkWorld (backend_url w) (home w) (gallery w) (mounts w) (toasts w)
    (console w) (requests w) (location_pathname w) (location_search w)
    a (clipboard w).

Definition with_clipboard (c : option jsstring) (w : World) : World :=
  mkWorld (backend_url w) (home w) (gallery w) (mounts w) (toasts w)
    (console w) (requests w) (location_pathname w) (location_search w)
    (location_assigned w) c.

(** ** A monad for handler bodies: state, and exceptions that keep the state *)

Inductive Completion (A : Type) : Type :=
| Normal (a : A)
| Throw (e : JsError).
Arguments Normal {A} a.
Arguments Throw {A} e.

Definition Js (A : Type) : Type := World -> Completion A * World.

Definition ret {A} (a : A) : Js A := fun w => (Normal a, w).

Definition throw {A} (e : JsError) : Js A := fun w => (Throw e, w).

Definition bind {A B} (m : Js A) (k : A -> Js B) : Js B :=
  fun w =>
    match m w with
    | (Normal a, w1) => k a w1
    | (Throw e, w1) => (Throw e, w1)
    end.

Declare Scope js_scope.
Delimit Scope js_scope with js.
Notation "x <- m ;; k" := (bind m (fun x => k))
  (at level 61, m at next level, right associativity) : js_scope.
Notation "m ;; k" := (bind m (fun _ => k))
  (at level 61, right associativity) : js_scope.
Open Scope js_scope.

(** [try { body } catch (error) { handler }] *)
Definition try_catch {A} (body : Js A) (handler : JsError -> Js A) : Js A :=
  fun w =>
    match body w with
    | (Normal a, w1) => (Normal a, w1)
    | (Throw e, w1) => handler e w1
    end.

(** [try { body } finally { fin }]: [fin] runs on every exit and, when it
    completes normally, the completion of [body] stands. *)
Definition try_finally {A} (body : Js A) (fin : Js unit) : Js A :=
  fun w =>
    match body w with
    | (c, w1) =>
        match fin w1 with
        | (Normal _, w2) => (c, w2)
        | (Throw e, w2) => (Throw e, w2)
        end
    end.

(** [try { body } catch (error) { handler } finally { fin }] *)
Definition try_catch_finally {A} (body : Js A) (handler : JsError -> Js A)
    (fin : Js unit) : Js A :=
  try_finally (try_catch body handler) fin.

(** [await p] for a promise that has settled. *)
Definition await {A} (p : Settled A) : Js A :=
  match p with
  | Rejected e => throw e
  | Resolved d => ret d
  end.

Definition modify (f : World -> World) : Js unit := fun w => (Normal tt, f w).
Definition gets {A} (f : World -> A) : Js A := fun w => (Normal (f w), w).

Definition exec {A} (m : Js A) (w : World) : World := snd (m w).
Definition completes {A} (m : Js A) (w : World) : Prop :=
  exists a, fst (m w) = Normal a.

(** ** Primitive effects *)

Definition set_spotifyData (v : option SpotifyData) (h : HomeState) : HomeState :=
  mkHome v (loading h) (sessionId h) (artistsText h) (genresText h) (generating h) (result h).
Definition set_loading (v : bool) (h : HomeState) : HomeState :=
  mkHome (spotifyData h) v (sessionId h) (artistsText h) (genresText h) (generating h) (result h).
Definition set_sessionId (v : option jsstring) (h : HomeState) : HomeState :=
  mkHome (spotifyData h) (loading h) v (artistsText h) (genresText h) (generating h) (result h).
Definition set_artistsText (v : jsstring) (h : HomeState) : HomeState :=
  mkHome (spotifyData h) (loading h) (sessionId h) v (genresText h) (generating h) (result h).
Definition set_genresText (v : jsstring) (h : HomeState) : HomeState :=
  mkHome (spotifyData h) (loading h) (sessionId h) (artistsText h) v (generating h) (result h).
Definition set_generating (v : bool) (h : HomeState) : HomeState :=
  mkHome (spotifyData h) (loading h) (sessionId h) (artistsText h) (genresText h) v (result h).
Definition set_result (v : option GenerationResult) (h : HomeState) : HomeState :=
  mkHome (spotifyData h) (loading h) (sessionId h) (artistsText h) (genresText h) (generating h) v.

Definition setSpotifyData v : Js unit := modify (with_home (set_spotifyData v)).
Definition setLoading v : Js unit := modify (with_home (set_loading v)).
Definition setSessionId v : Js unit := modify (with_home (set_sessionId v)).
Definition setArtistsText v : Js unit := modify (with_home (set_artistsText v)).
Definition setGenresText v : Js unit := modify (with_home (set_genresText v)).
Definition setGenerating v : Js unit := modify (with_home (set_generating v)).
Definition setResult v : Js unit := modify (with_home (set_result v)).

(** A setter of [GalleryPage] belongs to the instance that created it: once
    that instance is unmounted the call changes nothing. *)
Definition update_instance (i : nat) (f : GalleryState -> GalleryState)
    (w : World) : World :=
  match gallery w with
  | Some (j, g) => if Nat.eqb i j then with_gallery (Some (j, f g)) w else w
  | None => w
  end.

Definition setRegenerating (i : nat) (v : bool) : Js unit :=
  modify (update_instance i (fun g => mkGallery v (shown_prompts g))).
Definition setPrompts (i : nat) (v : list jsstring) : Js unit :=
  modify (update_instance i (fun g => mkGallery (regenerating g) v)).

Definition toast (k : ToastKind) (msg : string) : Js unit :=
  modify (fun w => with_toasts (toasts w ++ [(k, lit msg)]) w).
Definition toast_success := toast ToastSuccess.
Definition toast_error := toast ToastError.
Definition toast_info := toast ToastInfo.

Definition console_error (msg : string) (error : JsError) : Js unit :=
  modify (fun w => with_console (console w ++ [(lit msg, error)]) w).

(** Calling axios issues the request; the promise settles later. *)
Definition axios (r : Request) : Js unit :=
  modify (fun w => with_requests (requests w ++ [r]) w).

(** [const API = `${BACKEND_URL}/api`] *)
Definition API (w : World) : jsstring := backend_url w ++ lit "/api".

(** [new URLSearchParams(window.location.search).get(name)]: the value of
    the first parameter of that name, [null] when there is none. *)
Fixpoint URLSearchParams_get (name : jsstring)
    (params : list (jsstring * jsstring)) : option jsstring :=
  match params with
  | [] => None
  | (k, v) :: rest =>
      if JsString.eqb k name then Some v else URLSearchParams_get name rest
  end.

(** Truthiness of a value that is a string or [null]. *)
Definition truthy_opt (x : option jsstring) : bool :=
  match x with
  | Some s => truthy s
  | None => false
  end.

(** [window.history.replaceState({}, document.title, url)] with [url] a
    bare path: the address loses its query, the document stays loaded. *)
Definition history_replaceState (path : jsstring) : Js unit :=
  modify (fun w =>
    mkWorld (backend_url w) (home w) (gallery w) (mounts w) (toasts w)
      (console w) (requests w) path [] (location_assigned w) (clipboard w)).

(** [window.location.href = url]: the browser leaves for [url]. *)
Definition location_assign (url : jsstring) : Js unit :=
  modify (fun w => with_assigned (location_assigned w ++ [url]) w).

(** ** HomePage: handlers *)

(** A string-or-[null] inside a template literal. *)
Definition interpolate (x : option jsstring) : jsstring :=
  match x with
  | Some s => s
  | None => lit "null"
  end.

(** [fetchSpotifyData(sessionId)], up to its [await]. *)
Definition fetchSpotifyData (sessionId : option jsstring) : Js unit :=
  api <- gets API ;;
  axios (AxiosGet (api ++ lit "/session/" ++ interpolate sessionId ++ lit "/spotify")).

(** [fetchSpotifyData], from its [await] on. *)
Definition fetchSpotifyData_settled (p : Settled SessionData) : Js unit :=
  try_catch
    (response <- await p ;;
     match spotify_data response with
     | Has d =>
         setSpotifyData (Some d) ;;
         setArtistsText (or_empty (artists_text d)) ;;
         setGenresText (or_empty (genres_text d)) ;;
         toast_success "Spotify data loaded successfully!"
     | Absent | JsNull => ret tt
     end)
    (fun error => console_error "Error fetching Spotify data:" error).

(** The body of [useEffect(..., [])], run once after the first render. *)
Definition useEffect_mount : Js unit :=
  urlParams <- gets location_search ;;
  let spotifyConnected := URLSearchParams_get (lit "spotify_connected") urlParams in
  let session := URLSearchParams_get (lit "session") urlParams in
  if truthy_opt spotifyConnected && truthy_opt session then
    setSessionId session ;;
    fetchSpotifyData session ;;
    pathname <- gets location_pathname ;;
    history_replaceState pathname
  else ret tt.

(** [handleSpotifyConnect], up to its [await]. *)
Definition handleSpotifyConnect : Js unit :=
  setLoading true ;;
  api <- gets API ;;
  axios (AxiosGet (api ++ lit "/login/spotify")).

(** [handleSpotifyConnect], from its [await] on. *)
Definition handleSpotifyConnect_settled (p : Settled LoginData) : Js unit :=
  try_catch
    (response <- await p ;;
     location_assign (auth_url response))
    (fun error =>
       console_error "Error connecting to Spotify:" error ;;
       toast_error "Failed to connect to Spotify" ;;
       setLoading false).

(** [sessionId || ''] *)
Definition sessionId_or_empty (x : option jsstring) : jsstring :=
  match x with
  | Some s => if truthy s then s else []
  | None => []
  end.

(** The guard that opens [handleGenerate] and is half of the button's
    [disabled] prop: [!artistsText.trim() && !genresText.trim()]. *)
Definition nothing_entered (h : HomeState) : bool :=
  negb (truthy (trim (artistsText h))) && negb (truthy (trim (genresText h))).

(** [handleGenerate], up to its [await]. *)
Definition handleGenerate : Js unit :=
  h <- gets home ;;
  if nothing_entered h then
    toast_error "Please provide artists or genres, or connect your Spotify account"
  else
    setGenerating true ;;
    let formData :=
      [ (lit "session_id", sessionId_or_empty (sessionId h));
        (lit "artists_text", artistsText h);
        (lit "genres_text", genresText h) ] in
    api <- gets API ;;
    axios (AxiosPostForm (api ++ lit "/generate") formData).

(** [handleGenerate], from its [await] on. *)
Definition handleGenerate_settled (p : Settled GenerationResult) : Js unit :=
  try_catch_finally
    (response <- await p ;;
     setResult (Some response) ;;
     toast_success "DJ Persona generated successfully!")
    (fun error =>
       console_error "Error generating persona:" error ;;
       toast_error "Failed to generate DJ persona")
    (setGenerating false).

Definition clearSpotify : Js unit :=
  setSpotifyData None ;;
  setSessionId None ;;
  setArtistsText [] ;;
  setGenresText [] ;;
  toast_info "Spotify data cleared".

(** [onBack={() => setResult(null)}] *)
Definition onBack : Js unit := setResult None.

(** ** GalleryPage: handlers *)

(** [handleRegeneratePrompts] of instance [i] rendered with prop [result],
    up to its [await]. *)
Definition handleRegeneratePrompts (i : nat) (result : GenerationResult) : Js unit :=
  setRegenerating i true ;;
  api <- gets API ;;
  axios (AxiosPost (api ++ lit "/regenerate-prompts/" ++ session_id result)).

(** [handleRegeneratePrompts] of instance [i], from its [await] on. *)
Definition handleRegeneratePrompts_settled (i : nat) (p : Settled PromptsData) : Js unit :=
  try_catch_finally
    (response <- await p ;;
     setPrompts i (new_prompts response) ;;
     toast_success "New prompts generated!")
    (fun error =>
       console_error "Error regenerating prompts:" error ;;
       toast_error "Failed to regenerate prompts")
    (setRegenerating i false).

(** [navigator.clipboard.writeText(prompt)] *)
Definition copyPrompt (prompt : jsstring) : Js unit :=
  modify (with_clipboard (Some prompt)).

(** ** Rendered trees *)

Inductive Handler :=
| HSpotifyConnect
| HClearSpotify
| HGenerate
| HBack
| HRegeneratePrompts
| HCopy (prompt : jsstring).

Inductive InputField := ArtistsInput | GenresInput.

Inductive Attr :=
| TestId (id : string)              (* data-testid *)
| OnClick (h : Handler)
| OnChange (f : InputField)
| Disabled (b : bool)
| Value (v : jsstring)
| Placeholder (s : jsstring)
| Src (url : jsstring)
| Alt (s : jsstring)
| Title (s : jsstring)
| BackgroundColor (s : jsstring)    (* style.backgroundColor *)
| Key (n : nat).

#[local] Set Warnings "-register-all".
Inductive Node :=
| Text (s : jsstring)
| Elem (tag : string) (attrs : list Attr) (children : list Node).

(** [l.map((x, index) => f x index)] *)
Fixpoint mapi_from {A B} (f : A -> nat -> B) (n : nat) (l : list A) : list B :=
  match l with
  | [] => []
  | x :: l' => f x n :: mapi_from f (S n) l'
  end.
Definition mapi {A B} (f : A -> nat -> B) (l : list A) : list B := mapi_from f 0 l.

(** [{cond && node}] as a child. *)
Definition when (cond : bool) (n : Node) : list Node :=
  if cond then [n] else [].

(** [a?.slice(0, 3).join(', ')] as a child: nothing when [a] is missing. *)
Definition first_three (a : JsField (list jsstring)) : list Node :=
  match a with
  | Has l => [Text (join (lit ", ") (firstn 3 l))]
  | _ => []
  end.

(** [a?.length > 3] *)
Definition more_than_three (a : JsField (list jsstring)) : bool :=
  match a with
  | Has l => Nat.ltb 3 (List.length l)
  | _ => false
  end.

(** [a && a.length > 0] as a condition. *)
Definition non_empty_array (a : JsField (list jsstring)) : bool :=
  match a with
  | Has l => Nat.ltb 0 (List.length l)
  | _ => false
  end.

Definition array_items (a : JsField (list jsstring)) : list jsstring :=
  match a with
  | Has l => l
  | _ => []
  end.

(** The Spotify card's content: the JSX of [spotifyData ? (...) : (...)]. *)
Definition SpotifyCardContent (h : HomeState) : Node :=
  match spotifyData h with
  | Some d =>
      Elem "div" []
        [ Elem "div" []
            [ Elem "Badge" [] [Text (0x2713%N :: lit " Connected to Spotify")];
              Elem "Button" [OnClick HClearSpotify; TestId "clear-spotify-btn"]
                [Text (lit "Clear")] ];
          Elem "div" []
            [ Elem "p" []
                ([Elem "strong" [] [Text (lit "Artists:")]; Text (lit " ")]
                 ++ first_three (artists d) ++ [Text (lit " ")]
                 ++ when (more_than_three (artists d)) (Text (lit "...")));
              Elem "p" []
                ([Elem "strong" [] [Text (lit "Genres:")]; Text (lit " ")]
                 ++ first_three (genres d) ++ [Text (lit " ")]
                 ++ when (more_than_three (genres d)) (Text (lit "..."))) ] ]
  | None =>
      Elem "Button"
        [OnClick HSpotifyConnect; Disabled (loading h); TestId "connect-spotify-btn"]
        [Text (lit (if loading h then "Connecting..." else "Connect with Spotify"))]
  end.

(** The [disabled] prop of the Generate button. *)
Definition generate_disabled (h : HomeState) : bool :=
  generating h || nothing_entered h.

(** What [HomePage] returns when [result] is falsy: the Generator View. *)
Definition GeneratorView (h : HomeState) : Node :=
  Elem "div" []
    [ Elem "div" []
        [ Elem "div" []
            [ Elem "h1" [TestId "main-title"] [Text (lit "AI DJ Persona")];
              Elem "p" []
                [Text (lit "Transform your music taste into a visual DJ identity. Connect Spotify, upload photos, and watch AI create your unique persona.")] ];
          Elem "div" []
            [ Elem "div" []
                [ Elem "Card" [TestId "spotify-card"]
                    [ Elem "CardHeader" []
                        [ Elem "CardTitle" []
                            [Text (0xD83C%N :: 0xDFB5%N :: lit " Spotify Integration")];
                          Elem "CardDescription" []
                            [Text (lit "Connect your Spotify to automatically analyze your music taste")] ];
                      Elem "CardContent" [] [SpotifyCardContent h] ];
                  Elem "Card" [TestId "manual-input-card"]
                    [ Elem "CardHeader" []
                        [ Elem "CardTitle" [] [Text (lit "Manual Input")];
                          Elem "CardDescription" []
                            [Text (lit "Or manually enter your favorite artists and genres")] ];
                      Elem "CardContent" []
                        [ Elem "div" []
                            [ Elem "label" [] [Text (lit "Top Artists")];
                              Elem "Input"
                                [ Placeholder (lit "e.g., Deadmau5, Charlotte de Witte, Amelie Lens");
                                  Value (artistsText h); OnChange ArtistsInput;
                                  TestId "artists-input" ] [] ];
                          Elem "div" []
                            [ Elem "label" [] [Text (lit "Genres")];
                              Elem "Input"
                                [ Placeholder (lit "e.g., techno, melodic house, progressive house");
                                  Value (genresText h); OnChange GenresInput;
                                  TestId "genres-input" ] [] ] ] ] ];
              Elem "Card" [TestId "info-card"]
                [ Elem "CardHeader" []
                    [ Elem "CardTitle" []
                        [Text (0x2728%N :: lit " AI-Generated DJ Persona")];
                      Elem "CardDescription" []
                        [Text (lit "Our AI will create a unique DJ persona based on your music taste, complete with a custom name, bio, and 4 professional DJ photos")] ] ];
              Elem "div" []
                [ Elem "Button"
                    [OnClick HGenerate; Disabled (generate_disabled h); TestId "generate-btn"]
                    (if generating h then
                       [ Elem "div" [] []; Text (lit "Generating Your DJ Persona...") ]
                     else [Text (lit "Generate DJ Persona")]) ] ] ] ].

(** ** GalleryPage: render *)

Definition PaletteSwatch (color : jsstring) (index : nat) : Node :=
  Elem "div" [Key index; BackgroundColor color; Title color] [].

Definition StyleTag (tag : jsstring) (index : nat) : Node :=
  Elem "Badge" [Key index] [Text tag].

Definition UploadedPhoto (BACKEND_URL : jsstring) (result : GenerationResult)
    (photo : jsstring) (index : nat) : Node :=
  Elem "div" [Key index]
    [ Elem "img"
        [ Src (BACKEND_URL ++ lit "/static/uploads/" ++ session_id result
               ++ lit "/" ++ photo);
          Alt (lit "Uploaded photo " ++ of_nat (index + 1)) ] [] ].

Definition GeneratedImage (BACKEND_URL : jsstring) (result : GenerationResult)
    (imageUrl : jsstring) (index : nat) : Node :=
  Elem "div" [Key index]
    [ Elem "img"
        [ Src (BACKEND_URL ++ lit "/static/generated/" ++ session_id result
               ++ lit "/" ++ imageUrl);
          Alt (lit "Generated DJ persona image " ++ of_nat (index + 1)) ] [] ].

Definition PromptItem (prompt : jsstring) (index : nat) : Node :=
  Elem "div" [Key index]
    [ Elem "div" []
        [ Elem "span" [] [Text (lit "Prompt "); Text (of_nat (index + 1))];
          Elem "Button" [OnClick (HCopy prompt)] [Text (lit "Copy")] ];
      Elem "p" [] [Text prompt] ].

Definition PersonaCard (p : Persona) : Node :=
  Elem "Card" [TestId "persona-card"]
    [ Elem "CardHeader" []
        [ Elem "CardTitle" [] [Text (dj_name p)];
          Elem "CardDescription" [] [Text (bio p)] ];
      Elem "CardContent" []
        [ Elem "div" []
            [ Elem "h4" [] [Text (lit "Color Palette")];
              Elem "div" [] (mapi PaletteSwatch (palette p)) ];
          Elem "div" []
            [ Elem "h4" [] [Text (lit "Style Tags")];
              Elem "div" [] (mapi StyleTag (style_tags p)) ];
          Elem "div" []
            [ Elem "h4" [] [Text (lit "Logo Shape")];
              Elem "Badge" [] [Text (logo_shape p)] ] ] ].

Definition UploadedPhotosCard (BACKEND_URL : jsstring) (result : GenerationResult) : Node :=
  Elem "Card" [TestId "uploaded-photos-card"]
    [ Elem "CardHeader" [] [Elem "CardTitle" [] [Text (lit "Uploaded Photos")]];
      Elem "CardContent" []
        [ Elem "div" []
            (mapi (UploadedPhoto BACKEND_URL result)
               (array_items (uploaded_photos result))) ] ].

Definition GeneratedImagesCard (BACKEND_URL : jsstring) (result : GenerationResult) : Node :=
  Elem "Card" [TestId "generated-images-card"]
    [ Elem "CardHeader" []
        [Elem "CardTitle" [] [Text (lit "Generated DJ Persona Images")]];
      Elem "CardContent" []
        [ Elem "div" []
            (mapi (GeneratedImage BACKEND_URL result)
               (array_items (image_urls result))) ] ].

Definition PromptsCard (g : GalleryState) : Node :=
  Elem "Card" [TestId "prompts-card"]
    [ Elem "CardHeader" []
        [ Elem "CardTitle" []
            [ Text (lit "AI Prompts for Your DJ Persona");
              Elem "Button"
                [ OnClick HRegeneratePrompts; Disabled (regenerating g);
                  TestId "regenerate-prompts-btn" ]
                [Text (lit (if regenerating g then "Regenerating..."
                            else "Regenerate Prompts"))] ];
          Elem "CardDescription" []
            [Text (lit "Copy these prompts to use with any AI image generator")] ];
      Elem "CardContent" []
        [Elem "div" [] (mapi PromptItem (shown_prompts g))] ].

(** What [GalleryPage] returns for prop [result] and its own state [g]. *)
Definition GalleryPage (BACKEND_URL : jsstring) (result : GenerationResult)
    (g : GalleryState) : Node :=
  Elem "div" []
    [ Elem "div" []
        [ Elem "div" []
            [ Elem "Button" [OnClick HBack; TestId "back-btn"]
                [Text (0x2190%N :: lit " Back to Generator")];
              Elem "h1" [TestId "gallery-title"] [Text (lit "Your DJ Persona")];
              Elem "div" [] [Text (lit "Session: "); Text (session_id result)] ];
          Elem "div" []
            [ PersonaCard (persona result);
              Elem "div" []
                (when (non_empty_array (uploaded_photos result))
                   (UploadedPhotosCard BACKEND_URL result)
                 ++ [ if non_empty_array (image_urls result)
                      then GeneratedImagesCard BACKEND_URL result
                      else PromptsCard g ]) ] ] ].

(** ** HomePage: render *)

(** The state of the [GalleryPage] under [HomePage]: the mounted instance's,
    or on its first render the initial one, [useState(result.prompts)]. *)
Definition gallery_state (w : World) (r : GenerationResult) : GalleryState :=
  match gallery w with
  | Some (_, g) => g
  | None => mkGallery false (prompts r)
  end.

(** [if (result) return <GalleryPage .../>; return (...)] *)
Definition HomePage (w : World) : Node :=
  match result (home w) with
  | Some r => GalleryPage (backend_url w) r (gallery_state w r)
  | None => GeneratorView (home w)
  end.

(** ** Queries on rendered trees *)

(** A node and everything below it, in document order. *)
Fixpoint subtrees (n : Node) : list Node :=
  n :: match n with
       | Text _ => []
       | Elem _ _ cs => flat_map subtrees cs
       end.

Fixpoint testid_of (attrs : list Attr) : option string :=
  match attrs with
  | [] => None
  | TestId id :: _ => Some id
  | _ :: rest => testid_of rest
  end.

Fixpoint disabled_of (attrs : list Attr) : bool :=
  match attrs with
  | [] => false
  | Disabled b :: _ => b
  | _ :: rest => disabled_of rest
  end.

Definition handler_eqb (a b : Handler) : bool :=
  match a, b with
  | HSpotifyConnect, HSpotifyConnect => true
  | HClearSpotify, HClearSpotify => true
  | HGenerate, HGenerate => true
  | HBack, HBack => true
  | HRegeneratePrompts, HRegeneratePrompts => true
  | HCopy p, HCopy q => JsString.eqb p q
  | _, _ => false
  end.

Fixpoint onclick_is (h : Handler) (attrs : list Attr) : bool :=
  match attrs with
  | [] => false
  | OnClick h' :: _ => handler_eqb h h'
  | _ :: rest => onclick_is h rest
  end.

Definition has_testid (id : string) (n : Node) : bool :=
  match n with
  | Elem _ attrs _ =>
      match testid_of attrs with
      | Some i => String.eqb i id
      | None => false
      end
  | Text _ => false
  end.

Definition has_tag (tag : string) (n : Node) : bool :=
  match n with
  | Elem t _ _ => String.eqb t tag
  | Text _ => false
  end.

(** The elements carrying [data-testid=id]. *)
Definition by_testid (id : string) (n : Node) : list Node :=
  filter (has_testid id) (subtrees n).

(** The elements of a given component or tag. *)
Definition by_tag (tag : string) (n : Node) : list Node :=
  filter (has_tag tag) (subtrees n).

(** The text a node shows: its text leaves, in document order. *)
Definition texts (n : Node) : list jsstring :=
  flat_map (fun m => match m with Text s => [s] | Elem _ _ _ => [] end)
    (subtrees n).

(** An element the user can click to run [h]: it carries [onClick=h] and is
    not disabled. *)
Definition offers (h : Handler) (n : Node) : bool :=
  match n with
  | Elem _ attrs _ => onclick_is h attrs && negb (disabled_of attrs)
  | Text _ => false
  end.

Definition clickable (h : Handler) (n : Node) : bool :=
  existsb (offers h) (subtrees n).

Definition field_eqb (a b : InputField) : bool :=
  match a, b with
  | ArtistsInput, ArtistsInput => true
  | GenresInput, GenresInput => true
  | _, _ => false
  end.

Fixpoint onchange_is (f : InputField) (attrs : list Attr) : bool :=
  match attrs with
  | [] => false
  | OnChange f' :: _ => field_eqb f f'
  | _ :: rest => onchange_is f rest
  end.

(** The view holds the input that reports its changes to [f]. *)
Definition editable (f : InputField) (n : Node) : bool :=
  existsb
    (fun m => match m with
              | Elem _ attrs _ => onchange_is f attrs
              | Text _ => false
              end)
    (subtrees n).

(** The two views, told apart by their titles. *)
Definition shows_generator (n : Node) : bool :=
  existsb (has_testid "main-title") (subtrees n).
Definition shows_gallery (n : Node) : bool :=
  existsb (has_testid "gallery-title") (subtrees n).

(** The green badge of the Spotify card: a [Badge] below the element with
    [data-testid=spotify-card]. *)
Definition shows_spotify_badge (n : Node) : bool :=
  existsb
    (fun card =>
       has_testid "spotify-card" card && existsb (has_tag "Badge") (subtrees card))
    (subtrees n).

(** [Q] rejects every text and every element the Gallery View is made of.
    Used for the properties that say what the Gallery View does not
    contain. *)
Definition rejects_gallery_elements (Q : Node -> bool) : Prop :=
  (forall s, Q (Text s) = false) /\
  (forall tag cs,
     Q (Elem tag [] cs) = false) /\
  (forall tag k cs, Q (Elem tag [Key k] cs) = false) /\
  (forall tag k a b cs,
     Q (Elem tag [Key k; BackgroundColor a; Title b] cs) = false) /\
  (forall tag a b cs, Q (Elem tag [Src a; Alt b] cs) = false) /\
  (forall tag p cs, Q (Elem tag [OnClick (HCopy p)] cs) = false) /\
  (forall tag b cs,
     Q (Elem tag [OnClick HRegeneratePrompts; Disabled b;
                  TestId "regenerate-prompts-btn"] cs) = false) /\
  (forall tag cs, Q (Elem tag [OnClick HBack; TestId "back-btn"] cs) = false) /\
  (forall tag cs, Q (Elem tag [TestId "gallery-title"] cs) = false) /\
  (forall tag cs, Q (Elem tag [TestId "persona-card"] cs) = false) /\
  (forall tag cs, Q (Elem tag [TestId "uploaded-photos-card"] cs) = false) /\
  (forall tag cs, Q (Elem tag [TestId "generated-images-card"] cs) = false) /\
  (forall tag cs, Q (Elem tag [TestId "prompts-card"] cs) = false).

(** ** The client as a machine *)

(** React after a state change: [GalleryPage] is mounted, with fresh state,
    when [result] becomes truthy, kept with its state while it stays so, and
    unmounted when [result] becomes [null]. *)
Definition reconcile (w : World) : World :=
  match result (home w), gallery w with
  | Some r, None =>
      with_mounts (S (mounts w))
        (with_gallery (Some (mounts w, mkGallery false (prompts r))) w)
  | None, Some _ => with_gallery None w
  | _, _ => w
  end.

(** The function behind each [onClick]. *)
Definition fire (h : Handler) : Js unit :=
  match h with
  | HSpotifyConnect => handleSpotifyConnect
  | HClearSpotify => clearSpotify
  | HGenerate => handleGenerate
  | HBack => onBack
  | HRegeneratePrompts =>
      w <- gets (fun w => w) ;;
      match result (home w), gallery w with
      | Some r, Some (i, _) => handleRegeneratePrompts i r
      | _, _ => ret tt
      end
  | HCopy prompt => copyPrompt prompt
  end.

(** [onChange={(e) => set...Text(e.target.value)}] *)
Definition change (f : InputField) (value : jsstring) : Js unit :=
  match f with
  | ArtistsInput => setArtistsText value
  | GenresInput => setGenresText value
  end.

Inductive Event :=
| Mounted
| Click (h : Handler)
| Change (f : InputField) (value : jsstring)
| LoginSettled (p : Settled LoginData)
| SessionSettled (p : Settled SessionData)
| GenerateSettled (p : Settled GenerationResult)
| RegenerateSettled (i : nat) (p : Settled PromptsData).

Definition react (ev : Event) : Js unit :=
  match ev with
  | Mounted => useEffect_mount
  | Click h => fire h
  | Change f v => change f v
  | LoginSettled p => handleSpotifyConnect_settled p
  | SessionSettled p => fetchSpotifyData_settled p
  | GenerateSettled p => handleGenerate_settled p
  | RegenerateSettled i p => handleRegeneratePrompts_settled i p
  end.

(** A click reaches its handler only through an enabled element of the
    current view, a change only through an input of the current view. *)
Definition deliverable (ev : Event) (w : World) : bool :=
  match ev with
  | Click h => clickable h (HomePage w)
  | Change f _ => editable f (HomePage w)
  | _ => true
  end.

Definition step (w : World) (ev : Event) : World :=
  if deliverable ev w then reconcile (exec (react ev) w) else w.

Definition run (w : World) (evs : list Event) : World := fold_left step evs w.

(** ** The four network calls and their failure *)

Inductive Call :=
| LoginCall
| SessionCall
| GenerateCall
| RegenerateCall (i : nat).

(** The continuation of the handler that made call [c], resumed with a
    rejected promise. *)
Definition settle_rejected (c : Call) (e : JsError) : Js unit :=
  match c with
  | LoginCall => handleSpotifyConnect_settled (Rejected e)
  | SessionCall => fetchSpotifyData_settled (Rejected e)
  | GenerateCall => handleGenerate_settled (Rejected e)
  | RegenerateCall i => handleRegeneratePrompts_settled i (Rejected e)
  end.

(** The failure reached the console. *)
Definition failure_logged (c : Call) (e : JsError) (w : World) : Prop :=
  exists msg,
    console (exec (settle_rejected c e) w) = console w ++ [(msg, e)].

(** The failure reached the user as an error notification. *)
Definition failure_notified (c : Call) (e : JsError) (w : World) : Prop :=
  exists msg,
    toasts (exec (settle_rejected c e) w) = toasts w ++ [(ToastError, msg)].

(** ** Reachable worlds and what events do *)

(** What every world reached from a page load satisfies: [GalleryPage] is
    mounted exactly while [result] is set, its instance number is one that
    has been handed out, and a stored session id is a non-empty string. *)
Definition well_formed (w : World) : Prop :=
  (result (home w) = None <-> gallery w = None) /\
  (forall i g, gallery w = Some (i, g) -> i < mounts w) /\
  (forall S, sessionId (home w) = Some S -> S <> []).

(** The events whose handler calls axios. *)
Definition starts_call (ev : Event) : bool :=
  match ev with
  | Mounted
  | Click HSpotifyConnect
  | Click HGenerate
  | Click HRegeneratePrompts => true
  | _ => false
  end.

(** The parts of the Gallery View that carry a handler. *)
Definition BackButton : Node :=
  Elem "Button" [OnClick HBack; TestId "back-btn"]
    [Text (0x2190%N :: lit " Back to Generator")].

Definition RegenerateButton (g : GalleryState) : Node :=
  Elem "Button"
    [ OnClick HRegeneratePrompts; Disabled (regenerating g);
      TestId "regenerate-prompts-btn" ]
    [Text (lit (if regenerating g then "Regenerating..."
                else "Regenerate Prompts"))].

Definition CopyButton (prompt : jsstring) : Node :=
  Elem "Button" [OnClick (HCopy prompt)] [Text (lit "Copy")].

Fixpoint src_of (attrs : list Attr) : option jsstring :=
  match attrs with
  | [] => None
  | Src url :: _ => Some url
  | _ :: rest => src_of rest
  end.

(** The [src] of every element that has one, in document order. *)
Definition image_sources (n : Node) : list jsstring :=
  flat_map
    (fun m => match m with
              | Elem _ attrs _ =>
                  match src_of attrs with
                  | Some url => [url]
                  | None => []
                  end
              | Text _ => []
              end)
    (subtrees n).

(** ** Example worlds *)

Definition example_backend : jsstring := lit "http://localhost:8001".

(** The page as the backend's redirect opens it:
    [/?spotify_connected=true&session=abc]. *)
Definition returned_page : World :=
  page_load example_backend (lit "/")
    [(lit "spotify_connected", lit "true"); (lit "session", lit "abc")].


(** [/?spotify_connected=false&session=abc] *)
Definition returned_page_not_connected : World :=
  page_load example_backend (lit "/")
    [(lit "spotify_connected", lit "false"); (lit "session", lit "abc")].

(** A plain visit, [/], with some text typed into the artists field. *)
Definition typed_page : World :=
  with_home (set_artistsText (lit "Deadmau5")) (page_load example_backend (lit "/") []).

Definition example_persona : Persona :=
  mkPersona (lit "DJ Nova") (lit "Melodic techno from the north.")
    [lit "#00ffff"; lit "#10b981"] [lit "neon"; lit "minimal"] (lit "hexagon").

Definition example_result : GenerationResult :=
  mkGenerationResult (lit "abc") example_persona
    [lit "a DJ in neon light"; lit "a DJ behind the decks"] (Has []) (Has []).

(** The Gallery View mounted on [example_result]. *)
Definition gallery_page : World :=
  reconcile (with_home (set_result (Some example_result)) typed_page).

(** * Properties *)

(** ** Trimming *)

Example trim_both_ends :
  trim (lit "  Daft Punk ") = lit "Daft Punk" /\
  trim (0x00A0%N :: 0x2003%N :: lit "a" ++ [0xFEFF%N; 0x000A%N]) = lit "a" /\
  trim (lit "   ") = [].
Proof. repeat split. Qed.

Example first_parameter_wins :
  URLSearchParams_get (lit "session")
    [(lit "session", lit "a"); (lit "session", lit "b")] = Some (lit "a") /\
  URLSearchParams_get (lit "session") [(lit "other", lit "a")] = None.
Proof. split; reflexivity. Qed.

Lemma trimStart_nil_iff (s : jsstring) :
  trimStart s = [] <-> whitespace_only s.
Proof.
  unfold whitespace_only.
  induction s as [|c s IH]; simpl.
  - split; [constructor | reflexivity].
  - destruct (is_js_whitespace c) eqn:Hc.
    + rewrite IH. split.
      * intros H. constructor; assumption.
      * intros H. inversion H; assumption.
    + split; [discriminate|].
      intros H. inversion H; congruence.
Qed.

Lemma whitespace_only_trimStart (s : jsstring) :
  whitespace_only (trimStart s) <-> whitespace_only s.
Proof.
  unfold whitespace_only.
  induction s as [|c s IH]; simpl; [tauto|].
  destruct (is_js_whitespace c) eqn:Hc; [|tauto].
  rewrite IH. split.
  - intros H. constructor; assumption.
  - intros H. inversion H; assumption.
Qed.

Lemma whitespace_only_rev (s : jsstring) :
  whitespace_only (rev s) <-> whitespace_only s.
Proof.
  unfold whitespace_only. split; intros H.
  - rewrite <- (rev_involutive s). apply Forall_rev. exact H.
  - apply Forall_rev. exact H.
Qed.

(** [s.trim()] is the empty string exactly when [s] is empty or made of
    whitespace only. *)
Lemma trim_nil_iff (s : jsstring) :
  trim s = [] <-> whitespace_only s.
Proof.
  unfold trim, trimEnd.
  rewrite <- whitespace_only_trimStart, <- whitespace_only_rev,
    <- trimStart_nil_iff.
  split; intros H.
  - apply (f_equal (@rev jschar)) in H. rewrite rev_involutive in H. exact H.
  - rewrite H. reflexivity.
Qed.

Lemma truthy_trim_false_iff (s : jsstring) :
  truthy (trim s) = false <-> whitespace_only s.
Proof.
  rewrite <- trim_nil_iff.
  destruct (trim s); simpl; split; congruence.
Qed.

(** The guard of [handleGenerate] holds exactly when both fields are empty
    or whitespace-only. *)
Lemma nothing_entered_iff (h : HomeState) :
  nothing_entered h = true <->
  whitespace_only (artistsText h) /\ whitespace_only (genresText h).
Proof.
  unfold nothing_entered.
  rewrite andb_true_iff, !negb_true_iff, !truthy_trim_false_iff.
  reflexivity.
Qed.

(** ** Searching a rendered tree *)

Arguments lit : simpl never.
Arguments of_nat : simpl never.

Section TreeSearch.

Variable P : Node -> bool.

Lemma existsb_subtrees_Text (s : jsstring) :
  existsb P (subtrees (Text s)) = P (Text s).
Proof. simpl. apply orb_false_r. Qed.

Lemma existsb_subtrees_Elem (tag : string) (attrs : list Attr) (cs : list Node) :
  existsb P (subtrees (Elem tag attrs cs)) =
  P (Elem tag attrs cs) || existsb (fun c => existsb P (subtrees c)) cs.
Proof.
  simpl. f_equal.
  induction cs as [|c cs IH]; simpl; [reflexivity|].
  rewrite existsb_app, IH. reflexivity.
Qed.

Lemma filter_subtrees_Text (s : jsstring) :
  filter P (subtrees (Text s)) = if P (Text s) then [Text s] else [].
Proof. reflexivity. Qed.

Lemma filter_subtrees_Elem (tag : string) (attrs : list Attr) (cs : list Node) :
  filter P (subtrees (Elem tag attrs cs)) =
  (if P (Elem tag attrs cs) then [Elem tag attrs cs] else [])
  ++ flat_map (fun c => filter P (subtrees c)) cs.
Proof.
  assert (H : filter P (flat_map subtrees cs) =
              flat_map (fun c => filter P (subtrees c)) cs).
  { induction cs as [|c cs IH]; simpl; [reflexivity|].
    rewrite filter_app, IH. reflexivity. }
  simpl. rewrite H. destruct (P (Elem tag attrs cs)); reflexivity.
Qed.

End TreeSearch.

Lemma existsb_mapi_from_false {A} (Q : Node -> bool) (f : A -> nat -> Node)
    (l : list A) :
  (forall x i, Q (f x i) = false) ->
  forall n, existsb Q (mapi_from f n l) = false.
Proof.
  intros Hf. induction l as [|x l IH]; intros n; simpl; [reflexivity|].
  rewrite Hf, IH. reflexivity.
Qed.

Lemma flat_map_mapi_from_nil {A B} (F : Node -> list B) (f : A -> nat -> Node)
    (l : list A) :
  (forall x i, F (f x i) = []) ->
  forall n, flat_map F (mapi_from f n l) = [].
Proof.
  intros Hf. induction l as [|x l IH]; intros n; simpl; [reflexivity|].
  rewrite Hf, IH. reflexivity.
Qed.

(** Rewrites a search through a tree of known shape into searches through
    its parts. *)
Ltac search_tree :=
  repeat (rewrite ?existsb_subtrees_Elem, ?existsb_subtrees_Text, ?existsb_app;
          cbn [existsb has_testid has_tag offers testid_of onclick_is
               disabled_of handler_eqb String.eqb Ascii.eqb Bool.eqb
               orb andb negb when]).

Lemma gallery_has_none (Q : Node -> bool) (B : jsstring)
    (r : GenerationResult) (g : GalleryState) :
  rejects_gallery_elements Q ->
  existsb Q (subtrees (GalleryPage B r g)) = false.
Proof.
  intros (HT & H0 & HK & HS & HI & HC & HR & HB & HG & HP & HU & HGI & HPC).
  unfold GalleryPage, PersonaCard.
  repeat (rewrite ?existsb_subtrees_Elem, ?existsb_subtrees_Text, ?existsb_app,
            ?HT, ?H0, ?HK, ?HI, ?HC, ?HR, ?HB, ?HG, ?HP, ?HU, ?HGI, ?HPC;
          cbn [existsb orb]).
  unfold mapi.
  rewrite !existsb_mapi_from_false.
  - cbn [orb].
    assert (HU' : existsb (fun c => existsb Q (subtrees c))
              (when (non_empty_array (uploaded_photos r))
                 (UploadedPhotosCard B r)) = false).
    { destruct (non_empty_array (uploaded_photos r)); [|reflexivity].
      unfold when, UploadedPhotosCard, mapi.
      repeat (rewrite ?existsb_subtrees_Elem, ?existsb_subtrees_Text,
                ?HT, ?H0, ?HU; cbn [existsb orb]).
      rewrite existsb_mapi_from_false; [reflexivity|].
      intros x i. unfold UploadedPhoto.
      repeat (rewrite ?existsb_subtrees_Elem, ?HK, ?HI; cbn [existsb orb]).
      reflexivity. }
    rewrite HU'. cbn [orb].
    destruct (non_empty_array (image_urls r)).
    + unfold GeneratedImagesCard, mapi.
      repeat (rewrite ?existsb_subtrees_Elem, ?existsb_subtrees_Text,
                ?HT, ?H0, ?HGI; cbn [existsb orb]).
      rewrite existsb_mapi_from_false; [reflexivity|].
      intros x i. unfold GeneratedImage.
      repeat (rewrite ?existsb_subtrees_Elem, ?HK, ?HI; cbn [existsb orb]).
      reflexivity.
    + unfold PromptsCard, mapi.
      repeat (rewrite ?existsb_subtrees_Elem, ?existsb_subtrees_Text,
                ?HT, ?H0, ?HPC, ?HR; cbn [existsb orb]).
      rewrite existsb_mapi_from_false; [reflexivity|].
      intros x i. unfold PromptItem.
      repeat (rewrite ?existsb_subtrees_Elem, ?existsb_subtrees_Text,
                ?HT, ?H0, ?HK, ?HC; cbn [existsb orb]).
      reflexivity.
  - intros x i. unfold StyleTag.
    repeat (rewrite ?existsb_subtrees_Elem, ?existsb_subtrees_Text, ?HT, ?HK;
            cbn [existsb orb]).
    reflexivity.
  - intros x i. unfold PaletteSwatch.
    repeat (rewrite ?existsb_subtrees_Elem, ?HS; cbn [existsb orb]).
    reflexivity.
Qed.

(** ** View selection *)

(** Splits a goal about the Generator View into the shapes the view can
    take; in each the search runs to its end by computation. *)
Ltac search_generator h :=
  unfold GeneratorView, SpotifyCardContent;
  let d := fresh "d" in
  destruct (spotifyData h) as [d|];
  [ destruct (artists d), (genres d);
    cbn [first_three more_than_three when];
    repeat match goal with
           | |- context [when ?c _] => destruct c; cbn [when]
           end
  | ];
  destruct (generating h); vm_compute.

Lemma generator_view_titles (h : HomeState) :
  shows_generator (GeneratorView h) = true /\
  shows_gallery (GeneratorView h) = false.
Proof.
  unfold shows_generator, shows_gallery.
  split; search_generator h; reflexivity.
Qed.

Lemma gallery_view_titles (B : jsstring) (r : GenerationResult) (g : GalleryState) :
  shows_gallery (GalleryPage B r g) = true /\
  shows_generator (GalleryPage B r g) = false.
Proof.
  split.
  - unfold shows_gallery, GalleryPage. search_tree. reflexivity.
  - apply gallery_has_none. repeat split; reflexivity.
Qed.

(** C1. In every client state [HomePage] returns exactly one of the two
    views, and which one depends only on whether [result] holds a
    GenerationResult: the Gallery View exactly when [result] is non-null,
    the Generator View (the form) otherwise. *)
Theorem C1_view_selected_by_result (w : World) :
  (forall r, result (home w) = Some r ->
     HomePage w = GalleryPage (backend_url w) r (gallery_state w r)) /\
  (result (home w) = None -> HomePage w = GeneratorView (home w)) /\
  (shows_gallery (HomePage w) = true <-> result (home w) <> None) /\
  (shows_generator (HomePage w) = true <-> result (home w) = None) /\
  shows_gallery (HomePage w) = negb (shows_generator (HomePage w)).
Proof.
  unfold HomePage.
  destruct (result (home w)) as [r|] eqn:Hr.
  - destruct (gallery_view_titles (backend_url w) r (gallery_state w r)) as [Hg Hn].
    rewrite Hg, Hn.
    repeat split; try congruence; try discriminate.
  - destruct (generator_view_titles (home w)) as [Hg Hn].
    rewrite Hg, Hn.
    repeat split; try congruence; try discriminate.
Qed.

(** ** The Generate guard *)

Lemma gallery_offers_no_generate (B : jsstring) (r : GenerationResult)
    (g : GalleryState) :
  clickable HGenerate (GalleryPage B r g) = false.
Proof. apply gallery_has_none. repeat split; reflexivity. Qed.

Lemma generate_not_clickable_when_disabled (h : HomeState) :
  generate_disabled h = true ->
  clickable HGenerate (GeneratorView h) = false.
Proof.
  intros H. unfold clickable.
  unfold GeneratorView. rewrite H.
  search_generator h; reflexivity.
Qed.

(** C2. When the artists text and the genres text are both empty or
    whitespace-only, the Generate button is disabled (no enabled element of
    the rendered view runs [handleGenerate]) and [handleGenerate], if it is
    invoked all the same, issues no request and changes nothing but the list
    of notifications, to which it adds one error.  When at least one of the
    two texts has a non-whitespace character the guard passes: the handler
    sets the busy flag and posts the form to the generate endpoint. *)
Theorem C2_generate_guard (w : World) :
  (whitespace_only (artistsText (home w)) /\
   whitespace_only (genresText (home w)) ->
   generate_disabled (home w) = true /\
   clickable HGenerate (HomePage w) = false /\
   handleGenerate w =
     (Normal tt,
      with_toasts
        (toasts w ++
         [(ToastError,
           lit "Please provide artists or genres, or connect your Spotify account")])
        w)) /\
  (~ (whitespace_only (artistsText (home w)) /\
      whitespace_only (genresText (home w))) ->
   handleGenerate w =
     (Normal tt,
      with_requests
        (requests w ++
         [AxiosPostForm (API w ++ lit "/generate")
            [ (lit "session_id", sessionId_or_empty (sessionId (home w)));
              (lit "artists_text", artistsText (home w));
              (lit "genres_text", genresText (home w)) ]])
        (with_home (set_generating true) w))).
Proof.
  split; intros H.
  - apply nothing_entered_iff in H.
    assert (Hd : generate_disabled (home w) = true).
    { unfold generate_disabled. rewrite H. apply orb_true_r. }
    split; [exact Hd|]. split.
    + unfold HomePage. destruct (result (home w)).
      * apply gallery_offers_no_generate.
      * apply generate_not_clickable_when_disabled. exact Hd.
    + unfold handleGenerate, bind, gets. rewrite H. reflexivity.
  - rewrite <- nothing_entered_iff in H.
    apply not_true_is_false in H.
    unfold handleGenerate, bind, gets. rewrite H. reflexivity.
Qed.

(** ** Failed network calls *)

(** The rendered view reads [BACKEND_URL] and the state of the two
    components, nothing else of the world. *)
Lemma HomePage_ext (w w' : World) :
  backend_url w' = backend_url w ->
  home w' = home w ->
  gallery w' = gallery w ->
  HomePage w' = HomePage w.
Proof.
  intros HB Hh Hg. unfold HomePage, gallery_state.
  rewrite HB, Hh, Hg. reflexivity.
Qed.

Lemma set_loading_same (h : HomeState) :
  loading h = false -> set_loading false (set_loading true h) = h.
Proof. destruct h; simpl; intros ->; reflexivity. Qed.

Lemma set_generating_same (h : HomeState) :
  generating h = false -> set_generating false (set_generating true h) = h.
Proof. destruct h; simpl; intros ->; reflexivity. Qed.

Lemma set_generating_idle (h : HomeState) :
  generating h = false -> set_generating false h = h.
Proof. destruct h; simpl; intros ->; reflexivity. Qed.

Lemma login_rejected (e : JsError) (w : World) :
  handleSpotifyConnect_settled (Rejected e) w =
  (Normal tt,
   with_home (set_loading false)
     (with_toasts (toasts w ++ [(ToastError, lit "Failed to connect to Spotify")])
        (with_console (console w ++ [(lit "Error connecting to Spotify:", e)]) w))).
Proof. reflexivity. Qed.

Lemma session_rejected (e : JsError) (w : World) :
  fetchSpotifyData_settled (Rejected e) w =
  (Normal tt,
   with_console (console w ++ [(lit "Error fetching Spotify data:", e)]) w).
Proof. reflexivity. Qed.

Lemma generate_rejected (e : JsError) (w : World) :
  handleGenerate_settled (Rejected e) w =
  (Normal tt,
   with_home (set_generating false)
     (with_toasts (toasts w ++ [(ToastError, lit "Failed to generate DJ persona")])
        (with_console (console w ++ [(lit "Error generating persona:", e)]) w))).
Proof. reflexivity. Qed.

Lemma regenerate_rejected (i : nat) (e : JsError) (w : World) :
  handleRegeneratePrompts_settled i (Rejected e) w =
  (Normal tt,
   update_instance i (fun g => mkGallery false (shown_prompts g))
     (with_toasts (toasts w ++ [(ToastError, lit "Failed to regenerate prompts")])
        (with_console (console w ++ [(lit "Error regenerating prompts:", e)]) w))).
Proof. reflexivity. Qed.

Lemma toasts_update_instance (i : nat) (f : GalleryState -> GalleryState)
    (w : World) :
  toasts (update_instance i f w) = toasts w.
Proof.
  unfold update_instance.
  destruct (gallery w) as [[j g]|]; [destruct (Nat.eqb i j)|]; reflexivity.
Qed.

Lemma console_update_instance (i : nat) (f : GalleryState -> GalleryState)
    (w : World) :
  console (update_instance i f w) = console w.
Proof.
  unfold update_instance.
  destruct (gallery w) as [[j g]|]; [destruct (Nat.eqb i j)|]; reflexivity.
Qed.

(** A rejected login, generate or regenerate call is caught inside the
    handler that made it, logged to the console and shown as one error
    notification, and the handler's busy flag is cleared: every state cell
    of [HomePage] and of the mounted [GalleryPage] is what it was before
    the click, and so is the view.  No exception leaves the continuation of
    any of the four calls, and each logs the failure. *)
Theorem rejected_calls_restore_state (e : JsError) (w : World) :
  (forall c, completes (settle_rejected c e) w /\ failure_logged c e w) /\
  (forall c, c <> SessionCall -> failure_notified c e w) /\
  (loading (home w) = false ->
   let w' := exec (settle_rejected LoginCall e) (exec handleSpotifyConnect w) in
   home w' = home w /\ gallery w' = gallery w /\ HomePage w' = HomePage w) /\
  (generating (home w) = false ->
   let w' := exec (settle_rejected GenerateCall e) (exec handleGenerate w) in
   home w' = home w /\ gallery w' = gallery w /\ HomePage w' = HomePage w) /\
  (forall i r g,
     gallery w = Some (i, g) -> regenerating g = false ->
     let w' := exec (settle_rejected (RegenerateCall i) e)
                 (exec (handleRegeneratePrompts i r) w) in
     home w' = home w /\ gallery w' = gallery w /\ HomePage w' = HomePage w).
Proof.
  assert (Hview : forall w' : World,
             backend_url w' = backend_url w ->
             home w' = home w -> gallery w' = gallery w ->
             home w' = home w /\ gallery w' = gallery w /\
             HomePage w' = HomePage w).
  { intros w' HB Hh Hg. split; [exact Hh|]. split; [exact Hg|].
    apply HomePage_ext; assumption. }
  split; [|split; [|split; [|split]]].
  - intros c. split.
    + exists tt. destruct c; reflexivity.
    + destruct c; unfold failure_logged, settle_rejected, exec.
      * rewrite login_rejected. eexists. reflexivity.
      * rewrite session_rejected. eexists. reflexivity.
      * rewrite generate_rejected. eexists. reflexivity.
      * rewrite regenerate_rejected. eexists. simpl snd.
        rewrite console_update_instance. reflexivity.
  - intros c Hc. destruct c; unfold failure_notified, settle_rejected, exec.
    + rewrite login_rejected. eexists. reflexivity.
    + congruence.
    + rewrite generate_rejected. eexists. reflexivity.
    + rewrite regenerate_rejected. eexists. simpl snd.
      rewrite toasts_update_instance. reflexivity.
  - intros Hl w'. subst w'. apply Hview; try reflexivity.
    simpl. apply set_loading_same. exact Hl.
  - intros Hg w'. subst w'. apply Hview;
      unfold settle_rejected, handleGenerate, exec, bind, gets;
      destruct (nothing_entered (home w)); try reflexivity; simpl.
    + apply set_generating_idle. exact Hg.
    + apply set_generating_same. exact Hg.
  - intros i r g Hgal Hreg w'. subst w'.
    destruct w as [B h gal m ts cs rs pa q la cb]; simpl in Hgal; subst gal.
    destruct g as [reg ps]; simpl in Hreg; subst reg.
    unfold settle_rejected, exec. rewrite regenerate_rejected.
    unfold handleRegeneratePrompts, setRegenerating, bind, gets, modify, axios,
      update_instance.
    simpl. rewrite Nat.eqb_refl. simpl. rewrite Nat.eqb_refl.
    apply Hview; reflexivity.
Qed.

Lemma rejected_calls_restore_state_witness :
  home
    (exec (settle_rejected GenerateCall (HttpError 500))
       (exec handleGenerate typed_page))
  = home typed_page.
Proof.
  destruct (rejected_calls_restore_state (HttpError 500) typed_page)
    as (_ & _ & _ & Hgenerate & _).
  apply Hgenerate. reflexivity.
Defined.

(** C3.  Every failed network call is to be caught, logged and shown to
    the user as a notification.  The session fetch misses the last part: on
    the page opened by the redirect, [/?spotify_connected=true&session=abc],
    a rejected request for the session's Spotify data reaches the console,
    as in the three other handlers, but no notification is raised where
    each of them calls [toast.error]. *)
Theorem C3_session_failure_not_notified :
  let w := exec useEffect_mount returned_page in
  failure_logged SessionCall (HttpError 500) w /\
  ~ failure_notified SessionCall (HttpError 500) w /\
  toasts (exec (settle_rejected SessionCall (HttpError 500)) w) = [] /\
  failure_notified LoginCall (HttpError 500) w /\
  failure_notified GenerateCall (HttpError 500) w /\
  failure_notified (RegenerateCall 0) (HttpError 500) w.
Proof.
  split; [|split; [|split; [|split; [|split]]]].
  - eexists. reflexivity.
  - intros [msg H]. vm_compute in H. discriminate H.
  - reflexivity.
  - eexists. reflexivity.
  - eexists. reflexivity.
  - eexists. reflexivity.
Qed.

(** ** Return from the Spotify redirect *)

Lemma truthy_true_iff (s : jsstring) : truthy s = true <-> s <> [].
Proof. destruct s; simpl; split; congruence. Qed.

(** What the mount effect does once both parameters are truthy. *)
Lemma mount_on_return (w : World) (c S : jsstring) :
  URLSearchParams_get (lit "spotify_connected") (location_search w) = Some c ->
  URLSearchParams_get (lit "session") (location_search w) = Some S ->
  c <> [] -> S <> [] ->
  useEffect_mount w =
  (Normal tt,
   mkWorld (backend_url w) (set_sessionId (Some S) (home w)) (gallery w)
     (mounts w) (toasts w) (console w)
     (requests w ++ [AxiosGet (API w ++ lit "/session/" ++ S ++ lit "/spotify")])
     (location_pathname w) [] (location_assigned w) (clipboard w)).
Proof.
  intros Hc HS Hc' HS'.
  apply truthy_true_iff in Hc', HS'.
  unfold useEffect_mount, bind, gets.
  rewrite Hc, HS. simpl. rewrite Hc', HS'. reflexivity.
Qed.

(** Without a truthy pair of parameters the mount effect does nothing. *)
Lemma mount_otherwise (w : World) :
  truthy_opt (URLSearchParams_get (lit "spotify_connected") (location_search w))
  && truthy_opt (URLSearchParams_get (lit "session") (location_search w)) = false ->
  useEffect_mount w = (Normal tt, w).
Proof.
  intros H. unfold useEffect_mount, bind, gets. rewrite H. reflexivity.
Qed.

Lemma session_resolved_with_data (w : World) (d : SpotifyData) :
  fetchSpotifyData_settled (Resolved (mkSessionData (Has d))) w =
  (Normal tt,
   with_toasts (toasts w ++ [(ToastSuccess, lit "Spotify data loaded successfully!")])
     (with_home
        (fun h =>
           set_genresText (or_empty (genres_text d))
             (set_artistsText (or_empty (artists_text d))
                (set_spotifyData (Some d) h)))
        w)).
Proof. reflexivity. Qed.




(** C10.  The mount effect tests the two parameters for truthiness only:
    with any non-empty [spotify_connected] value, [false] included, and a
    non-empty [session=S], it stores [S], requests the session data for [S]
    and strips the query from the address. *)
Theorem C10_any_nonempty_value_triggers (w : World) (c S : jsstring) :
  URLSearchParams_get (lit "spotify_connected") (location_search w) = Some c ->
  URLSearchParams_get (lit "session") (location_search w) = Some S ->
  c <> [] -> S <> [] ->
  let w1 := exec useEffect_mount w in
  sessionId (home w1) = Some S /\
  requests w1 =
    requests w ++ [AxiosGet (API w ++ lit "/session/" ++ S ++ lit "/spotify")] /\
  location_search w1 = [] /\
  location_pathname w1 = location_pathname w.
Proof.
  intros Hc HS Hc' HS' w1.
  subst w1. unfold exec. rewrite (mount_on_return w Hc HS Hc' HS'). simpl.
  repeat split; reflexivity.
Qed.

Lemma C10_any_nonempty_value_triggers_witness :
  let w1 := exec useEffect_mount returned_page_not_connected in
  sessionId (home w1) = Some (lit "abc") /\
  requests w1 =
    [AxiosGet (lit "http://localhost:8001/api/session/abc/spotify")] /\
  location_search w1 = [] /\
  location_pathname w1 = lit "/".
Proof.
  apply (@C10_any_nonempty_value_triggers returned_page_not_connected
           (lit "false") (lit "abc")); try reflexivity; discriminate.
Defined.

(** ** A failed generate request *)

(** C5.  When the generate request fails, [handleGenerate] shows an error
    notification, leaves the artists text, the genres text, the session id
    and the Spotify data as they were, does not touch [result] (it stays
    absent if it was), and clears the busy flag. *)
Theorem C5_generate_failure_keeps_form (e : JsError) (w : World) :
  let w' := exec (handleGenerate_settled (Rejected e)) w in
  completes (handleGenerate_settled (Rejected e)) w /\
  toasts w' = toasts w ++ [(ToastError, lit "Failed to generate DJ persona")] /\
  artistsText (home w') = artistsText (home w) /\
  genresText (home w') = genresText (home w) /\
  sessionId (home w') = sessionId (home w) /\
  spotifyData (home w') = spotifyData (home w) /\
  result (home w') = result (home w) /\
  generating (home w') = false /\
  home w' = set_generating false (home w) /\
  requests w' = requests w.
Proof.
  intros w'. subst w'. unfold exec, completes. rewrite generate_rejected.
  simpl. repeat split. exists tt. reflexivity.
Qed.

(** ** A session without Spotify data *)

(** C9.  A session-spotify response whose [spotify_data] is missing or
    [null] changes nothing: no SpotifyData is stored, the text fields keep
    their content, nothing is notified and nothing is logged.  The Spotify
    card goes on offering the Connect button. *)
Theorem C9_no_spotify_data_is_not_connected (w : World) (r : SessionData) :
  spotify_data r = Absent \/ spotify_data r = JsNull ->
  fetchSpotifyData_settled (Resolved r) w = (Normal tt, w) /\
  (spotifyData (home w) = None ->
   shows_spotify_badge (HomePage (exec (fetchSpotifyData_settled (Resolved r)) w))
   = false).
Proof.
  intros H.
  assert (E : fetchSpotifyData_settled (Resolved r) w = (Normal tt, w)).
  { unfold fetchSpotifyData_settled, try_catch, bind, await, ret.
    destruct H as [H|H]; rewrite H; reflexivity. }
  split; [exact E|].
  intros Hs. unfold exec. rewrite E. simpl.
  unfold HomePage. destruct (result (home w)).
  - apply gallery_has_none. repeat split; reflexivity.
  - unfold shows_spotify_badge, GeneratorView, SpotifyCardContent.
    rewrite Hs. destruct (generating (home w)); vm_compute; reflexivity.
Qed.

Lemma C9_no_spotify_data_is_not_connected_witness :
  let w := exec useEffect_mount returned_page in
  fetchSpotifyData_settled (Resolved (mkSessionData JsNull)) w = (Normal tt, w).
Proof.
  intros w.
  exact (proj1 (@C9_no_spotify_data_is_not_connected w (mkSessionData JsNull)
                  (or_intror eq_refl))).
Defined.

(** ** Clear *)



(** ** The persona in the Gallery View *)

Lemma subtrees_self (n : Node) : In n (subtrees n).
Proof. destruct n; simpl; left; reflexivity. Qed.

Lemma subtrees_child (tag : string) (attrs : list Attr) (cs : list Node)
    (c x : Node) :
  In c cs -> In x (subtrees c) -> In x (subtrees (Elem tag attrs cs)).
Proof.
  intros Hc Hx. simpl. right. apply in_flat_map. exists c. split; assumption.
Qed.

Lemma in_texts (s : jsstring) (n : Node) :
  In (Text s) (subtrees n) -> In s (texts n).
Proof.
  intros H. unfold texts. apply in_flat_map.
  exists (Text s). split; [exact H | left; reflexivity].
Qed.

Lemma in_mapi_from {A B} (f : A -> nat -> B) (x : A) (l : list A) :
  In x l -> forall n, exists i, In (f x i) (mapi_from f n l).
Proof.
  induction l as [|y l IH]; intros Hx n; [contradiction|].
  destruct Hx as [->|Hx].
  - exists n. left. reflexivity.
  - destruct (IH Hx (S n)) as [i Hi]. exists i. right. exact Hi.
Qed.

Lemma persona_card_in_gallery (B : jsstring) (r : GenerationResult)
    (g : GalleryState) (x : Node) :
  In x (subtrees (PersonaCard (persona r))) ->
  In x (subtrees (GalleryPage B r g)).
Proof.
  intros H. unfold GalleryPage.
  eapply subtrees_child; [left; reflexivity|].
  eapply subtrees_child; [right; left; reflexivity|].
  eapply subtrees_child; [left; reflexivity|].
  exact H.
Qed.

Lemma dj_name_in_persona_card (p : Persona) :
  In (Text (dj_name p)) (subtrees (PersonaCard p)).
Proof.
  unfold PersonaCard.
  eapply subtrees_child; [left; reflexivity|].
  eapply subtrees_child; [left; reflexivity|].
  eapply subtrees_child; [left; reflexivity|].
  apply subtrees_self.
Qed.

Lemma style_tag_in_persona_card (p : Persona) (tag : jsstring) :
  In tag (style_tags p) -> In (Text tag) (subtrees (PersonaCard p)).
Proof.
  intros H. unfold PersonaCard.
  destruct (in_mapi_from StyleTag tag (style_tags p) H 0) as [i Hi].
  eapply subtrees_child; [right; left; reflexivity|].
  eapply subtrees_child; [right; left; reflexivity|].
  eapply subtrees_child; [right; left; reflexivity|].
  eapply subtrees_child; [exact Hi|].
  unfold StyleTag.
  eapply subtrees_child; [left; reflexivity|].
  apply subtrees_self.
Qed.

Lemma swatches_have_no (tag : string) (l : list jsstring) (n : nat) :
  String.eqb "div" tag = false ->
  flat_map (fun c => filter (has_tag tag) (subtrees c))
    (mapi_from PaletteSwatch n l) = [].
Proof.
  intros Ht. apply flat_map_mapi_from_nil. intros x i.
  unfold PaletteSwatch. cbn [subtrees flat_map filter has_tag app].
  rewrite Ht. reflexivity.
Qed.

Lemma style_tags_have_no (tag : string) (l : list jsstring) (n : nat) :
  String.eqb "Badge" tag = false ->
  flat_map (fun c => filter (has_tag tag) (subtrees c))
    (mapi_from StyleTag n l) = [].
Proof.
  intros Ht. apply flat_map_mapi_from_nil. intros x i.
  unfold StyleTag. cbn [subtrees flat_map filter has_tag app].
  rewrite Ht. reflexivity.
Qed.

Lemma style_tags_are_badges (l : list jsstring) (n : nat) :
  flat_map (fun c => filter (has_tag "Badge") (subtrees c))
    (mapi_from StyleTag n l) = mapi_from StyleTag n l.
Proof.
  revert n. induction l as [|x l IH]; intros n; simpl; [reflexivity|].
  rewrite IH. reflexivity.
Qed.

Lemma texts_of_style_tags (l : list jsstring) (n : nat) :
  flat_map texts (mapi_from StyleTag n l) = l.
Proof.
  revert n. induction l as [|x l IH]; intros n; simpl; [reflexivity|].
  rewrite IH. reflexivity.
Qed.

(** The persona card shows the DJ name as its only title. *)
Lemma persona_card_title (p : Persona) :
  flat_map texts (by_tag "CardTitle" (PersonaCard p)) = [dj_name p].
Proof.
  unfold by_tag, PersonaCard, mapi.
  repeat (rewrite ?filter_subtrees_Elem, ?filter_subtrees_Text;
          cbn [has_tag String.eqb Ascii.eqb Bool.eqb flat_map app]).
  rewrite swatches_have_no, style_tags_have_no by reflexivity.
  reflexivity.
Qed.

(** Its badges are the style tags, in order, followed by the logo shape. *)
Lemma persona_card_badges (p : Persona) :
  flat_map texts (by_tag "Badge" (PersonaCard p))
  = style_tags p ++ [logo_shape p].
Proof.
  unfold by_tag, PersonaCard, mapi.
  repeat (rewrite ?filter_subtrees_Elem, ?filter_subtrees_Text;
          cbn [has_tag String.eqb Ascii.eqb Bool.eqb flat_map app]).
  rewrite swatches_have_no by reflexivity.
  rewrite style_tags_are_badges.
  rewrite (app_nil_r (mapi_from StyleTag 0 (style_tags p))).
  cbn [app].
  rewrite 2 flat_map_app, texts_of_style_tags.
  change (flat_map texts [Elem "Badge" [] [Text (logo_shape p)]])
    with [logo_shape p].
  change (flat_map texts []) with (@nil jsstring).
  apply app_nil_r.
Qed.

Lemma home_reconcile (w : World) : home (reconcile w) = home w.
Proof.
  unfold reconcile.
  destruct (result (home w)), (gallery w); reflexivity.
Qed.

Lemma backend_url_reconcile (w : World) :
  backend_url (reconcile w) = backend_url w.
Proof.
  unfold reconcile.
  destruct (result (home w)), (gallery w); reflexivity.
Qed.

(** C8.  Once a generate call has succeeded with response [r], [result]
    holds [r], the Gallery View is rendered, and in it the persona card
    shows [r]'s DJ name as its title and one badge per style tag, each with
    the tag's own text, in the order of the list. *)
Theorem C8_gallery_shows_persona (w : World) (r : GenerationResult) :
  let w' := step w (GenerateSettled (Resolved r)) in
  let p := persona r in
  result (home w') = Some r /\
  HomePage w' = GalleryPage (backend_url w) r (gallery_state w' r) /\
  shows_gallery (HomePage w') = true /\
  In (PersonaCard p) (subtrees (HomePage w')) /\
  flat_map texts (by_tag "CardTitle" (PersonaCard p)) = [dj_name p] /\
  flat_map texts (by_tag "Badge" (PersonaCard p))
    = style_tags p ++ [logo_shape p] /\
  In (dj_name p) (texts (HomePage w')) /\
  (forall tag, In tag (style_tags p) -> In tag (texts (HomePage w'))).
Proof.
  intros w' p.
  assert (Hr : result (home w') = Some r).
  { subst w'. unfold step. simpl. rewrite home_reconcile. reflexivity. }
  assert (Hv : HomePage w' = GalleryPage (backend_url w) r (gallery_state w' r)).
  { unfold HomePage. rewrite Hr. f_equal.
    subst w'. unfold step. simpl. rewrite backend_url_reconcile. reflexivity. }
  split; [exact Hr|]. split; [exact Hv|].
  rewrite Hv.
  split; [exact (proj1 (gallery_view_titles _ _ _))|].
  split; [apply persona_card_in_gallery, subtrees_self|].
  split; [apply persona_card_title|].
  split; [apply persona_card_badges|].
  split.
  - apply in_texts, persona_card_in_gallery, dj_name_in_persona_card.
  - intros tag Ht.
    apply in_texts, persona_card_in_gallery, style_tag_in_persona_card, Ht.
Qed.

(** ** The properties at work *)

(** The badge and the enabled Generate button do show when they should. *)
Lemma badge_shown_when_connected (w : World) (d : SpotifyData) :
  result (home w) = None ->
  spotifyData (home w) = Some d ->
  shows_spotify_badge (HomePage w) = true.
Proof.
  intros Hr Hd. unfold HomePage, shows_spotify_badge. rewrite Hr.
  unfold GeneratorView, SpotifyCardContent. rewrite Hd.
  destruct (artists d), (genres d);
    cbn [first_three more_than_three when];
    repeat match goal with
           | |- context [when ?c _] => destruct c; cbn [when]
           end;
    destruct (generating (home w)); vm_compute; reflexivity.
Qed.

Lemma generate_clickable_when_enabled (h : HomeState) :
  generate_disabled h = false ->
  clickable HGenerate (GeneratorView h) = true.
Proof.
  intros H. unfold clickable.
  unfold GeneratorView. rewrite H.
  search_generator h; reflexivity.
Qed.

Lemma C1_view_selected_by_result_witness :
  HomePage gallery_page =
  GalleryPage example_backend example_result
    (mkGallery false (prompts example_result)) /\
  HomePage typed_page = GeneratorView (home typed_page).
Proof.
  destruct (C1_view_selected_by_result gallery_page) as (Hgal & _).
  destruct (C1_view_selected_by_result typed_page) as (_ & Hgen & _).
  split.
  - exact (Hgal example_result eq_refl).
  - exact (Hgen eq_refl).
Defined.

Lemma C2_generate_guard_witness :
  let blank := with_home (set_genresText (lit "  ")) (page_load example_backend (lit "/") []) in
  clickable HGenerate (HomePage blank) = false /\
  requests (exec handleGenerate blank) = [] /\
  requests (exec handleGenerate typed_page) =
    [AxiosPostForm (lit "http://localhost:8001/api/generate")
       [ (lit "session_id", []); (lit "artists_text", lit "Deadmau5");
         (lit "genres_text", []) ]].
Proof.
  intros blank.
  destruct (C2_generate_guard blank) as [Hblank _].
  destruct (C2_generate_guard typed_page) as [_ Htyped].
  destruct Hblank as (_ & Hc & Hh).
  { split; [constructor | repeat constructor]. }
  split; [exact Hc|]. split.
  - unfold exec. rewrite Hh. reflexivity.
  - unfold exec. rewrite Htyped; [reflexivity|].
    intros [Ha _]. inversion Ha as [|c s Hc' Hs]. discriminate Hc'.
Defined.

Lemma C8_gallery_shows_persona_witness :
  let w' := step typed_page (GenerateSettled (Resolved example_result)) in
  In (lit "DJ Nova") (texts (HomePage w')) /\
  In (lit "minimal") (texts (HomePage w')).
Proof.
  intros w'.
  destruct (C8_gallery_shows_persona typed_page example_result)
    as (_ & _ & _ & _ & _ & _ & Hname & Htags).
  split; [exact Hname|].
  apply Htags. right. left. reflexivity.
Defined.

(** One visit, end to end: return from Spotify, session data arrives, the
    user asks for a persona, gets it, and goes back. *)
Example a_visit :
  let d := mkSpotifyData (Has [lit "Deadmau5"]) (Has [lit "techno"])
             (Has (lit "Deadmau5")) (Has (lit "techno")) in
  let w1 := run returned_page
              [Mounted; SessionSettled (Resolved (mkSessionData (Has d)))] in
  let w2 := run w1 [Click HGenerate] in
  let w3 := run w2 [GenerateSettled (Resolved example_result)] in
  let w4 := run w3 [Click HBack] in
  (artistsText (home w1), genresText (home w1), sessionId (home w1))
    = (lit "Deadmau5", lit "techno", Some (lit "abc")) /\
  shows_spotify_badge (HomePage w1) = true /\
  requests w2 =
    [ AxiosGet (lit "http://localhost:8001/api/session/abc/spotify");
      AxiosPostForm (lit "http://localhost:8001/api/generate")
        [ (lit "session_id", lit "abc"); (lit "artists_text", lit "Deadmau5");
          (lit "genres_text", lit "techno") ] ] /\
  (generating (home w2), clickable HGenerate (HomePage w2)) = (true, false) /\
  (shows_gallery (HomePage w3), gallery w3)
    = (true, Some (0, mkGallery false (prompts example_result))) /\
  (shows_generator (HomePage w4), result (home w4), gallery w4)
    = (true, None, None) /\
  artistsText (home w4) = lit "Deadmau5".
Proof. vm_compute. repeat split. Qed.

(** * Further properties of the two components *)

(** ** What the Gallery View offers *)

Lemma existsb_prompt_items (Q : Node -> bool) (l : list jsstring) :
  (forall s, Q (Text s) = false) ->
  (forall tag cs, Q (Elem tag [] cs) = false) ->
  (forall tag k cs, Q (Elem tag [Key k] cs) = false) ->
  forall n,
    existsb (fun c => existsb Q (subtrees c)) (mapi_from PromptItem n l)
    = existsb (fun p => Q (CopyButton p)) l.
Proof.
  intros HT H0 HK. induction l as [|p l IH]; intros n; [reflexivity|].
  cbn [mapi_from existsb]. rewrite IH. f_equal.
  unfold PromptItem.
  repeat (rewrite ?existsb_subtrees_Elem, ?existsb_subtrees_Text,
            ?HT, ?H0, ?HK; cbn [existsb orb]).
  unfold CopyButton. rewrite !orb_false_r. reflexivity.
Qed.

(** A search through the Gallery View, for a predicate that rejects texts,
    elements without props and the keyed items of the lists, comes down to
    the few elements that carry a test id or a handler. *)
Lemma gallery_search (Q : Node -> bool) (B : jsstring) (r : GenerationResult)
    (g : GalleryState) :
  (forall s, Q (Text s) = false) ->
  (forall tag cs, Q (Elem tag [] cs) = false) ->
  (forall tag k cs, Q (Elem tag [Key k] cs) = false) ->
  (forall tag k a b cs,
     Q (Elem tag [Key k; BackgroundColor a; Title b] cs) = false) ->
  (forall tag a b cs, Q (Elem tag [Src a; Alt b] cs) = false) ->
  existsb Q (subtrees (GalleryPage B r g)) =
  Q BackButton
  || Q (Elem "h1" [TestId "gallery-title"] [Text (lit "Your DJ Persona")])
  || Q (PersonaCard (persona r))
  || (non_empty_array (uploaded_photos r) && Q (UploadedPhotosCard B r))
  || (if non_empty_array (image_urls r)
      then Q (GeneratedImagesCard B r)
      else Q (PromptsCard g) || Q (RegenerateButton g)
           || existsb (fun p => Q (CopyButton p)) (shown_prompts g)).
Proof.
  intros HT H0 HK HS HI.
  assert (Hsw : forall l n,
             existsb (fun c => existsb Q (subtrees c))
               (mapi_from PaletteSwatch n l) = false).
  { intros l n. apply existsb_mapi_from_false. intros x i.
    unfold PaletteSwatch. rewrite existsb_subtrees_Elem, HS. reflexivity. }
  assert (Hst : forall l n,
             existsb (fun c => existsb Q (subtrees c))
               (mapi_from StyleTag n l) = false).
  { intros l n. apply existsb_mapi_from_false. intros x i.
    unfold StyleTag.
    rewrite existsb_subtrees_Elem, HK. cbn [existsb orb].
    rewrite existsb_subtrees_Text, HT. reflexivity. }
  assert (Hup : forall l n,
             existsb (fun c => existsb Q (subtrees c))
               (mapi_from (UploadedPhoto B r) n l) = false).
  { intros l n. apply existsb_mapi_from_false. intros x i.
    unfold UploadedPhoto.
    rewrite existsb_subtrees_Elem, HK. cbn [existsb orb].
    rewrite existsb_subtrees_Elem, HI. reflexivity. }
  assert (Hgi : forall l n,
             existsb (fun c => existsb Q (subtrees c))
               (mapi_from (GeneratedImage B r) n l) = false).
  { intros l n. apply existsb_mapi_from_false. intros x i.
    unfold GeneratedImage.
    rewrite existsb_subtrees_Elem, HK. cbn [existsb orb].
    rewrite existsb_subtrees_Elem, HI. reflexivity. }
  assert (Hpersona : existsb Q (subtrees (PersonaCard (persona r)))
                     = Q (PersonaCard (persona r))).
  { unfold PersonaCard at 1. rewrite existsb_subtrees_Elem.
    fold (PersonaCard (persona r)). unfold mapi.
    repeat (rewrite ?existsb_subtrees_Elem, ?existsb_subtrees_Text,
              ?HT, ?H0, ?Hsw, ?Hst; cbn [existsb orb]).
    apply orb_false_r. }
  assert (Huploaded : existsb Q (subtrees (UploadedPhotosCard B r))
                      = Q (UploadedPhotosCard B r)).
  { unfold UploadedPhotosCard at 1. rewrite existsb_subtrees_Elem.
    fold (UploadedPhotosCard B r). unfold mapi.
    repeat (rewrite ?existsb_subtrees_Elem, ?existsb_subtrees_Text,
              ?HT, ?H0, ?Hup; cbn [existsb orb]).
    apply orb_false_r. }
  assert (Himages : existsb Q (subtrees (GeneratedImagesCard B r))
                    = Q (GeneratedImagesCard B r)).
  { unfold GeneratedImagesCard at 1. rewrite existsb_subtrees_Elem.
    fold (GeneratedImagesCard B r). unfold mapi.
    repeat (rewrite ?existsb_subtrees_Elem, ?existsb_subtrees_Text,
              ?HT, ?H0, ?Hgi; cbn [existsb orb]).
    apply orb_false_r. }
  assert (Hprompts : existsb Q (subtrees (PromptsCard g))
                     = Q (PromptsCard g) || Q (RegenerateButton g)
                       || existsb (fun p => Q (CopyButton p)) (shown_prompts g)).
  { unfold PromptsCard at 1. rewrite existsb_subtrees_Elem.
    fold (PromptsCard g). unfold mapi.
    cbn [existsb].
    rewrite !existsb_subtrees_Elem. cbn [existsb].
    rewrite !existsb_subtrees_Elem. cbn [existsb].
    rewrite !existsb_subtrees_Text, !HT, !H0.
    rewrite existsb_prompt_items by assumption.
    fold (RegenerateButton g).
    unfold RegenerateButton at 1. rewrite existsb_subtrees_Elem.
    fold (RegenerateButton g). cbn [existsb].
    rewrite existsb_subtrees_Text, HT.
    destruct (Q (PromptsCard g)), (Q (RegenerateButton g)),
      (existsb (fun p => Q (CopyButton p)) (shown_prompts g)); reflexivity. }
  unfold GalleryPage.
  rewrite existsb_subtrees_Elem, H0. cbn [existsb orb].
  rewrite existsb_subtrees_Elem, H0. cbn [existsb orb].
  rewrite !orb_false_r.
  rewrite (existsb_subtrees_Elem Q "div" []
             [Elem "Button" _ _; Elem "h1" _ _; Elem "div" _ _]), H0.
  cbn [existsb orb].
  fold BackButton.
  rewrite (existsb_subtrees_Elem Q "div" [] [PersonaCard _; _]), H0.
  cbn [existsb orb].
  rewrite Hpersona.
  rewrite (existsb_subtrees_Elem Q "div" [] (_ ++ _)), H0.
  cbn [orb]. rewrite existsb_app.
  unfold BackButton at 1.
  rewrite (existsb_subtrees_Elem Q "Button" _ [Text _]).
  fold BackButton. cbn [existsb]. rewrite existsb_subtrees_Text, HT.
  rewrite (existsb_subtrees_Elem Q "h1" _ [Text _]).
  cbn [existsb]. rewrite existsb_subtrees_Text, HT.
  rewrite (existsb_subtrees_Elem Q "div" [] [Text _; Text _]), H0.
  cbn [existsb]. rewrite !existsb_subtrees_Text, !HT.
  cbn [orb]. rewrite !orb_false_r.
  destruct (non_empty_array (uploaded_photos r));
    destruct (non_empty_array (image_urls r));
    cbn [when existsb andb orb];
    rewrite ?Huploaded, ?Himages, ?Hprompts, ?orb_false_r;
    repeat rewrite orb_assoc; reflexivity.
Qed.

Lemma jsstring_eqb_eq (a b : jsstring) : JsString.eqb a b = true <-> a = b.
Proof.
  revert b. induction a as [|x a IH]; intros [|y b]; simpl;
    try (split; [discriminate | discriminate]); [tauto|].
  rewrite andb_true_iff, N.eqb_eq, IH. split.
  - intros [-> ->]. reflexivity.
  - intros H. inversion H. split; reflexivity.
Qed.

Lemma existsb_eqb_In (p : jsstring) (l : list jsstring) :
  existsb (JsString.eqb p) l = true <-> In p l.
Proof.
  rewrite existsb_exists. split.
  - intros (q & Hq & He). apply jsstring_eqb_eq in He. subst. exact Hq.
  - intros H. exists p. split; [exact H | apply jsstring_eqb_eq; reflexivity].
Qed.

Lemma existsb_const_false {A} (l : list A) : existsb (fun _ => false) l = false.
Proof. induction l; simpl; auto. Qed.

(** Which handlers an enabled element of the Gallery View runs. *)
Lemma gallery_offers (h : Handler) (B : jsstring) (r : GenerationResult)
    (g : GalleryState) :
  clickable h (GalleryPage B r g) =
  offers h BackButton
  || (if non_empty_array (image_urls r) then false
      else offers h (RegenerateButton g)
           || existsb (fun p => offers h (CopyButton p)) (shown_prompts g)).
Proof.
  unfold clickable. rewrite gallery_search; try reflexivity.
  change (offers h (Elem "h1" [TestId "gallery-title"]
                      [Text (lit "Your DJ Persona")])) with false.
  change (offers h (PersonaCard (persona r))) with false.
  change (offers h (UploadedPhotosCard B r)) with false.
  change (offers h (GeneratedImagesCard B r)) with false.
  change (offers h (PromptsCard g)) with false.
  rewrite andb_false_r, !orb_false_r. reflexivity.
Qed.

Lemma gallery_offers_back (B : jsstring) (r : GenerationResult) (g : GalleryState) :
  clickable HBack (GalleryPage B r g) = true.
Proof. rewrite gallery_offers. reflexivity. Qed.

Lemma gallery_offers_regenerate (B : jsstring) (r : GenerationResult)
    (g : GalleryState) :
  clickable HRegeneratePrompts (GalleryPage B r g) =
  negb (non_empty_array (image_urls r)) && negb (regenerating g).
Proof.
  rewrite gallery_offers.
  change (offers HRegeneratePrompts BackButton) with false.
  destruct (non_empty_array (image_urls r)); [reflexivity|].
  cbn [orb negb andb].
  change (fun p => offers HRegeneratePrompts (CopyButton p))
    with (fun _ : jsstring => false).
  rewrite existsb_const_false, orb_false_r. reflexivity.
Qed.

Lemma gallery_offers_copy (p : jsstring) (B : jsstring) (r : GenerationResult)
    (g : GalleryState) :
  clickable (HCopy p) (GalleryPage B r g) =
  negb (non_empty_array (image_urls r))
  && existsb (JsString.eqb p) (shown_prompts g).
Proof.
  rewrite gallery_offers.
  change (offers (HCopy p) BackButton) with false.
  destruct (non_empty_array (image_urls r)); [reflexivity|].
  change (offers (HCopy p) (RegenerateButton g)) with false.
  cbn [orb negb andb].
  induction (shown_prompts g) as [|q l IH]; [reflexivity|].
  cbn [existsb]. rewrite IH. f_equal.
  unfold CopyButton. cbn [offers onclick_is disabled_of handler_eqb negb].
  apply andb_true_r.
Qed.

(** ** What the Generator View offers *)

(** Splits a goal about the Generator View into the shapes the view can
    take, the two busy flags included. *)
Ltac split_generator h :=
  unfold GeneratorView, SpotifyCardContent;
  let d := fresh "d" in
  destruct (spotifyData h) as [d|];
  [ destruct (artists d), (genres d);
    cbn [first_three more_than_three when];
    repeat match goal with
           | |- context [when ?c _] => destruct c; cbn [when]
           end
  | ];
  destruct (loading h); destruct (generating h).

Lemma generator_offers_connect (h : HomeState) :
  clickable HSpotifyConnect (GeneratorView h) =
  match spotifyData h with
  | Some _ => false
  | None => negb (loading h)
  end.
Proof. unfold clickable. split_generator h; vm_compute; reflexivity. Qed.

Lemma generator_offers_clear (h : HomeState) :
  clickable HClearSpotify (GeneratorView h) =
  match spotifyData h with
  | Some _ => true
  | None => false
  end.
Proof. unfold clickable. split_generator h; vm_compute; reflexivity. Qed.

Lemma generator_offers_generate (h : HomeState) :
  clickable HGenerate (GeneratorView h) = negb (generate_disabled h).
Proof.
  destruct (generate_disabled h) eqn:H.
  - apply generate_not_clickable_when_disabled. exact H.
  - apply generate_clickable_when_enabled. exact H.
Qed.

Lemma generator_offers_no_gallery_action (h : HomeState) :
  clickable HBack (GeneratorView h) = false /\
  clickable HRegeneratePrompts (GeneratorView h) = false /\
  forall p, clickable (HCopy p) (GeneratorView h) = false.
Proof.
  unfold clickable. repeat split; try intros p;
    split_generator h; vm_compute; reflexivity.
Qed.

Lemma generator_inputs (f : InputField) (h : HomeState) :
  editable f (GeneratorView h) = true.
Proof.
  unfold editable. destruct f; split_generator h; vm_compute; reflexivity.
Qed.

Lemma gallery_has_no_input (f : InputField) (B : jsstring)
    (r : GenerationResult) (g : GalleryState) :
  editable f (GalleryPage B r g) = false.
Proof. apply gallery_has_none. repeat split; reflexivity. Qed.

(** ** What a handler can and cannot touch *)

Ltac unfold_handlers :=
  unfold exec, react, fire, change, useEffect_mount, fetchSpotifyData_settled,
    handleSpotifyConnect, handleSpotifyConnect_settled, handleGenerate,
    handleGenerate_settled, clearSpotify, onBack, handleRegeneratePrompts,
    handleRegeneratePrompts_settled, copyPrompt, fetchSpotifyData,
    try_catch_finally, try_finally, try_catch, await,
    setSpotifyData, setLoading, setSessionId, setArtistsText, setGenresText,
    setGenerating, setResult, setRegenerating, setPrompts,
    toast_success, toast_error, toast_info, toast, console_error, axios,
    history_replaceState, location_assign, update_instance,
    bind, ret, throw, gets, modify.

(** Runs a handler on a world given field by field, splitting on every
    test the handler makes. *)
Ltac run_handler :=
  unfold_handlers;
  repeat (cbn [fst snd backend_url home gallery mounts toasts console requests
               location_pathname location_search location_assigned clipboard
               with_home with_gallery with_mounts with_toasts with_console
               with_requests with_search with_assigned with_clipboard
               spotifyData loading sessionId artistsText genresText generating
               result set_spotifyData set_loading set_sessionId set_artistsText
               set_genresText set_generating set_result spotify_data];
          try match goal with
              | |- context [match ?x with _ => _ end] =>
                  lazymatch x with
                  | context [match _ with _ => _ end] => fail
                  | _ => destruct x eqn:?
                  end
              end).

(** The mount effect, in either case. *)
Lemma mount_cases (w : World) :
  (truthy_opt (URLSearchParams_get (lit "spotify_connected") (location_search w))
   && truthy_opt (URLSearchParams_get (lit "session") (location_search w)) = false /\
   useEffect_mount w = (Normal tt, w)) \/
  (truthy_opt (URLSearchParams_get (lit "spotify_connected") (location_search w))
   && truthy_opt (URLSearchParams_get (lit "session") (location_search w)) = true /\
   exists c S,
     c <> [] /\ S <> [] /\
     URLSearchParams_get (lit "spotify_connected") (location_search w) = Some c /\
     URLSearchParams_get (lit "session") (location_search w) = Some S /\
     useEffect_mount w =
     (Normal tt,
      mkWorld (backend_url w) (set_sessionId (Some S) (home w)) (gallery w)
        (mounts w) (toasts w) (console w)
        (requests w ++ [AxiosGet (API w ++ lit "/session/" ++ S ++ lit "/spotify")])
        (location_pathname w) [] (location_assigned w) (clipboard w))).
Proof.
  destruct (truthy_opt (URLSearchParams_get (lit "spotify_connected") (location_search w))
            && truthy_opt (URLSearchParams_get (lit "session") (location_search w)))
    eqn:H.
  - right. split; [reflexivity|].
    apply andb_true_iff in H. destruct H as [Hc HS].
    destruct (URLSearchParams_get (lit "spotify_connected") (location_search w))
      as [c|] eqn:Ec; [|discriminate].
    destruct (URLSearchParams_get (lit "session") (location_search w))
      as [S|] eqn:ES; [|discriminate].
    simpl in Hc, HS. apply truthy_true_iff in Hc, HS.
    exists c, S. repeat split; try assumption.
    eapply mount_on_return; eassumption.
  - left. split; [reflexivity|]. apply mount_otherwise. exact H.
Qed.

Lemma react_frame (ev : Event) (w : World) :
  let w' := exec (react ev) w in
  backend_url w' = backend_url w /\
  mounts w' = mounts w /\
  option_map fst (gallery w') = option_map fst (gallery w) /\
  (sessionId (home w') = sessionId (home w) \/
   sessionId (home w') = None \/
   exists S, sessionId (home w') = Some S /\ S <> []).
Proof.
  destruct ev as [ | hd | f v | p | p | p | i p ].
  - cbv zeta. unfold exec, react.
    destruct (mount_cases w) as [[_ E] | (_ & c & S & _ & HS & _ & _ & E)]; rewrite E.
    + repeat split; auto.
    + repeat split. right. right. exists S. split; [reflexivity | exact HS].
  - destruct w as [B h gal m ts cs rs pa q la cb].
    destruct hd; cbv zeta; run_handler; repeat split; auto.
  - destruct w as [B h gal m ts cs rs pa q la cb].
    destruct f; cbv zeta; run_handler; repeat split; auto.
  - destruct w as [B h gal m ts cs rs pa q la cb].
    cbv zeta; run_handler; repeat split; auto.
  - destruct w as [B h gal m ts cs rs pa q la cb].
    cbv zeta; run_handler; repeat split; auto.
  - destruct w as [B h gal m ts cs rs pa q la cb].
    cbv zeta; run_handler; repeat split; auto.
  - destruct w as [B h gal m ts cs rs pa q la cb].
    cbv zeta; run_handler; repeat split; auto.
Qed.

Lemma react_requests (ev : Event) (w : World) :
  (starts_call ev = false -> requests (exec (react ev) w) = requests w) /\
  exists l, requests (exec (react ev) w) = requests w ++ l /\ List.length l <= 1.
Proof.
  assert (Hsame : forall a b : list Request,
             a = b -> exists l, a = b ++ l /\ List.length l <= 1).
  { intros a b ->. exists []. split; [symmetry; apply app_nil_r | simpl; lia]. }
  assert (Hone : forall (a : list Request) r,
             exists l, a ++ [r] = a ++ l /\ List.length l <= 1).
  { intros a r. exists [r]. split; [reflexivity | simpl; lia]. }
  destruct ev as [ | hd | f v | p | p | p | i p ].
  - unfold exec, react.
    destruct (mount_cases w) as [[_ E] | (_ & c & S & _ & _ & _ & _ & E)]; rewrite E.
    + split; [reflexivity | apply Hsame; reflexivity].
    + split; [discriminate | apply Hone].
  - destruct w as [B h gal m ts cs rs pa q la cb].
    destruct hd; run_handler;
      (split; [try discriminate; try reflexivity
              | first [apply Hone | apply Hsame; reflexivity]]).
  - destruct w as [B h gal m ts cs rs pa q la cb].
    destruct f; run_handler; (split; [reflexivity | apply Hsame; reflexivity]).
  - destruct w as [B h gal m ts cs rs pa q la cb].
    run_handler; (split; [reflexivity | apply Hsame; reflexivity]).
  - destruct w as [B h gal m ts cs rs pa q la cb].
    run_handler; (split; [reflexivity | apply Hsame; reflexivity]).
  - destruct w as [B h gal m ts cs rs pa q la cb].
    run_handler; (split; [reflexivity | apply Hsame; reflexivity]).
  - destruct w as [B h gal m ts cs rs pa q la cb].
    run_handler; (split; [reflexivity | apply Hsame; reflexivity]).
Qed.

Lemma react_navigation (ev : Event) (w : World) :
  location_assigned (exec (react ev) w) =
  location_assigned w ++
  match ev with
  | LoginSettled (Resolved d) => [auth_url d]
  | _ => []
  end.
Proof.
  destruct ev as [ | hd | f v | p | p | p | i p ].
  - unfold exec, react.
    destruct (mount_cases w) as [[_ E] | (_ & c & S & _ & _ & _ & _ & E)]; rewrite E;
      symmetry; apply app_nil_r.
  - destruct w as [B h gal m ts cs rs pa q la cb].
    destruct hd; run_handler; symmetry; apply app_nil_r.
  - destruct w as [B h gal m ts cs rs pa q la cb].
    destruct f; run_handler; symmetry; apply app_nil_r.
  - destruct w as [B h gal m ts cs rs pa q la cb].
    destruct p; run_handler; [symmetry; apply app_nil_r | reflexivity].
  - destruct w as [B h gal m ts cs rs pa q la cb].
    run_handler; symmetry; apply app_nil_r.
  - destruct w as [B h gal m ts cs rs pa q la cb].
    run_handler; symmetry; apply app_nil_r.
  - destruct w as [B h gal m ts cs rs pa q la cb].
    run_handler; symmetry; apply app_nil_r.
Qed.

(** ** Mounting and unmounting the Gallery View *)

Lemma reconcile_keeps (w : World) :
  requests (reconcile w) = requests w /\
  toasts (reconcile w) = toasts w /\
  console (reconcile w) = console w /\
  location_assigned (reconcile w) = location_assigned w /\
  location_search (reconcile w) = location_search w /\
  clipboard (reconcile w) = clipboard w.
Proof.
  unfold reconcile.
  destruct (result (home w)), (gallery w); repeat split.
Qed.

Lemma reconcile_consistent (w : World) :
  result (home (reconcile w)) = None <-> gallery (reconcile w) = None.
Proof.
  unfold reconcile.
  destruct (result (home w)) eqn:Hr, (gallery w) eqn:Hg; simpl;
    rewrite ?Hr, ?Hg; split; congruence.
Qed.

(** Nothing is mounted or unmounted when [result] and the mounted
    [GalleryPage] already agree. *)
Lemma reconcile_id (w : World) :
  (result (home w) = None <-> gallery w = None) -> reconcile w = w.
Proof.
  intros [H1 H2]. unfold reconcile.
  destruct (result (home w)) eqn:Hr, (gallery w) eqn:Hg; try reflexivity.
  - discriminate (H2 eq_refl).
  - discriminate (H1 eq_refl).
Qed.

Lemma step_well_formed (w : World) (ev : Event) :
  well_formed w -> well_formed (step w ev).
Proof.
  intros (Hc & Hf & Hs). unfold step.
  destruct (deliverable ev w); [|repeat split; assumption || apply Hc].
  destruct (react_frame ev w) as (_ & Hm & Hg & Hsid).
  cbv zeta in Hm, Hg, Hsid.
  set (w1 := exec (react ev) w) in *.
  split; [apply reconcile_consistent|]. split.
  - intros i g. unfold reconcile.
    destruct (result (home w1)) eqn:Hr, (gallery w1) as [[j gj]|] eqn:Hgal;
      simpl; rewrite ?Hgal; intros E; try discriminate.
    + inversion E; subst.
      destruct (gallery w) as [[j' gj']|] eqn:Hgw; simpl in Hg; [|discriminate].
      inversion Hg; subst. rewrite Hm. eapply Hf. reflexivity.
    + inversion E; subst. lia.
  - intros S. rewrite home_reconcile. intros E.
    destruct Hsid as [H | [H | (S' & H & HS')]]; rewrite H in E.
    + apply Hs. exact E.
    + discriminate.
    + inversion E; subst. exact HS'.
Qed.

(** ** Invariants of a visit *)

(** However a visit goes, the world stays well formed: the Gallery View is
    mounted exactly while [result] is set, its instance number is below the
    number of instances handed out, and the stored session id is [null] or
    a non-empty string (so [sessionId || ''] only ever replaces [null]). *)
Theorem visit_well_formed (base path : jsstring)
    (query : list (jsstring * jsstring)) (evs : list Event) :
  let w := run (page_load base path query) evs in
  well_formed w /\
  sessionId_or_empty (sessionId (home w)) =
    match sessionId (home w) with
    | Some s => s
    | None => []
    end.
Proof.
  intros w.
  assert (H : well_formed w).
  { subst w. unfold run.
    assert (H0 : well_formed (page_load base path query)).
    { repeat split; try discriminate; simpl; intros; discriminate. }
    revert H0. generalize (page_load base path query).
    induction evs as [|ev evs IH]; intros w0 H0; simpl; [exact H0|].
    apply IH, step_well_formed, H0. }
  split; [exact H|].
  destruct H as (_ & _ & Hs).
  destruct (sessionId (home w)) as [S|] eqn:E; [|reflexivity].
  simpl. specialize (Hs S eq_refl). destruct S; [congruence | reflexivity].
Qed.

(** Only four events make a network call: the mount effect and a click on
    Connect, Generate or Regenerate.  A settled promise, whatever its
    outcome, an edit, Clear, Back and Copy never do, so nothing is ever
    retried; and no event makes more than one call. *)
Theorem calls_only_from_four_events (w : World) (ev : Event) :
  (starts_call ev = false -> requests (step w ev) = requests w) /\
  exists l, requests (step w ev) = requests w ++ l /\ List.length l <= 1.
Proof.
  unfold step. destruct (deliverable ev w).
  - destruct (reconcile_keeps (exec (react ev) w)) as (-> & _).
    apply react_requests.
  - split; [reflexivity|]. exists []. split; [symmetry; apply app_nil_r|].
    simpl. lia.
Qed.

Lemma calls_only_from_four_events_witness :
  requests (step gallery_page (RegenerateSettled 0 (Rejected (HttpError 500))))
  = requests gallery_page.
Proof.
  apply (proj1 (calls_only_from_four_events gallery_page
                  (RegenerateSettled 0 (Rejected (HttpError 500))))).
  reflexivity.
Defined.

(** The browser is sent to another address by one event only: the login
    request resolving, and then to the [auth_url] the backend returned. *)
Theorem leaves_page_only_on_login_success (w : World) (ev : Event) :
  location_assigned (step w ev) =
  location_assigned w ++
  match ev with
  | LoginSettled (Resolved d) => [auth_url d]
  | _ => []
  end.
Proof.
  unfold step. destruct (deliverable ev w) eqn:Hd.
  - destruct (reconcile_keeps (exec (react ev) w)) as (_ & _ & _ & -> & _).
    apply react_navigation.
  - destruct ev as [ | hd | f v | p | p | p | i p ];
      try discriminate Hd; symmetry; apply app_nil_r.
Qed.

(** ** Which actions are available *)

(** The Generate button can be clicked exactly when the Generator View is
    shown, no generation is running and at least one of the two texts has a
    non-whitespace character. *)
Lemma clickable_generate_iff (w : World) :
  clickable HGenerate (HomePage w) = true <->
  result (home w) = None /\
  generating (home w) = false /\
  ~ (whitespace_only (artistsText (home w)) /\
     whitespace_only (genresText (home w))).
Proof.
  unfold HomePage. destruct (result (home w)) as [r|].
  - rewrite gallery_offers_no_generate. split; [discriminate|].
    intros (H & _). discriminate H.
  - rewrite generator_offers_generate, negb_true_iff.
    unfold generate_disabled. rewrite orb_false_iff.
    rewrite <- nothing_entered_iff, not_true_iff_false. tauto.
Qed.

(** The Spotify card offers Connect exactly when no Spotify data is held
    and no login is under way, and Clear exactly when Spotify data is held;
    so never both, and neither while the Gallery View is shown. *)
Lemma clickable_spotify_iff (w : World) :
  (clickable HSpotifyConnect (HomePage w) = true <->
   result (home w) = None /\ spotifyData (home w) = None /\
   loading (home w) = false) /\
  (clickable HClearSpotify (HomePage w) = true <->
   result (home w) = None /\ spotifyData (home w) <> None) /\
  clickable HSpotifyConnect (HomePage w) && clickable HClearSpotify (HomePage w)
  = false.
Proof.
  unfold HomePage. destruct (result (home w)) as [r|].
  - assert (Hc : clickable HSpotifyConnect
                   (GalleryPage (backend_url w) r (gallery_state w r)) = false)
      by (apply gallery_has_none; repeat split; reflexivity).
    assert (Hx : clickable HClearSpotify
                   (GalleryPage (backend_url w) r (gallery_state w r)) = false)
      by (apply gallery_has_none; repeat split; reflexivity).
    rewrite Hc, Hx.
    split; [|split]; [| |reflexivity];
      (split; [discriminate | intros (H & _); discriminate H]).
  - rewrite generator_offers_connect, generator_offers_clear.
    destruct (spotifyData (home w)) as [d|].
    + split; [|split]; [| |reflexivity].
      * split; [discriminate | intros (_ & H & _); discriminate H].
      * split; [intros _; split; [reflexivity | discriminate] | reflexivity].
    + rewrite andb_false_r. split; [|split]; [| |reflexivity].
      * rewrite negb_true_iff. tauto.
      * split; [discriminate | intros (_ & H); congruence].
Qed.

(** Back can be clicked exactly while the Gallery View is shown.
    Regenerate can be clicked exactly when, there, the result has no
    generated images (the prompts card is shown instead) and no regenerate
    request is running. *)
Lemma clickable_gallery_iff (w : World) :
  (clickable HBack (HomePage w) = true <-> result (home w) <> None) /\
  (clickable HRegeneratePrompts (HomePage w) = true <->
   exists r, result (home w) = Some r /\
             non_empty_array (image_urls r) = false /\
             regenerating (gallery_state w r) = false).
Proof.
  unfold HomePage.
  destruct (generator_offers_no_gallery_action (home w)) as (Hb & Hr & _).
  destruct (result (home w)) as [r|].
  - rewrite gallery_offers_back, gallery_offers_regenerate.
    rewrite andb_true_iff, !negb_true_iff.
    split; [split; congruence|]. split.
    + intros [H1 H2]. exists r. auto.
    + intros (r' & E & H1 & H2). inversion E; subst. auto.
  - rewrite Hb, Hr. split; split; try discriminate; try congruence.
    intros (r & E & _). discriminate E.
Qed.

Lemma gallery_page_well_formed : well_formed gallery_page.
Proof.
  split; [split; discriminate|]. split.
  - intros i g E. vm_compute in E. inversion E. subst. vm_compute. lia.
  - intros S E. vm_compute in E. discriminate E.
Defined.

(** A Copy button is there for exactly the prompts on display (none while
    generated images are shown in their place); clicking it puts that
    prompt on the clipboard and changes nothing else. *)
Theorem copy_exactly_the_shown_prompts (w : World) (p : jsstring) :
  (clickable (HCopy p) (HomePage w) = true <->
   exists r, result (home w) = Some r /\
             non_empty_array (image_urls r) = false /\
             In p (shown_prompts (gallery_state w r))) /\
  (well_formed w -> clickable (HCopy p) (HomePage w) = true ->
   step w (Click (HCopy p)) = with_clipboard (Some p) w).
Proof.
  split.
  - unfold HomePage.
    destruct (generator_offers_no_gallery_action (home w)) as (_ & _ & Hc).
    destruct (result (home w)) as [r|].
    + rewrite gallery_offers_copy, andb_true_iff, negb_true_iff,
        existsb_eqb_In.
      split.
      * intros [H1 H2]. exists r. auto.
      * intros (r' & E & H1 & H2). inversion E; subst. auto.
    + rewrite Hc. split; [discriminate|]. intros (r & E & _). discriminate E.
  - intros (Hc & _) H. unfold step, deliverable. rewrite H.
    apply reconcile_id. exact Hc.
Qed.

Lemma copy_exactly_the_shown_prompts_witness :
  clipboard (step gallery_page (Click (HCopy (lit "a DJ in neon light"))))
  = Some (lit "a DJ in neon light").
Proof.
  destruct (copy_exactly_the_shown_prompts gallery_page
              (lit "a DJ in neon light")) as [Hiff Hstep].
  rewrite Hstep.
  - reflexivity.
  - exact gallery_page_well_formed.
  - apply Hiff. exists example_result.
    split; [reflexivity|]. split; [reflexivity|]. left. reflexivity.
Defined.

(** The two text inputs are rendered exactly while the Generator View is
    shown; an edit there replaces that field and nothing else of the state
    of [HomePage]; while the Gallery View is shown there is no input, so a
    change event is not delivered and does nothing. *)
Theorem edits_only_in_generator (w : World) (f : InputField) (v : jsstring) :
  (editable f (HomePage w) = true <-> result (home w) = None) /\
  (result (home w) = None ->
   home (step w (Change f v)) =
   match f with
   | ArtistsInput => set_artistsText v (home w)
   | GenresInput => set_genresText v (home w)
   end) /\
  (result (home w) <> None -> step w (Change f v) = w).
Proof.
  assert (Hiff : editable f (HomePage w) = true <-> result (home w) = None).
  { unfold HomePage. destruct (result (home w)) as [r|].
    - rewrite gallery_has_no_input. split; discriminate.
    - rewrite generator_inputs. tauto. }
  split; [exact Hiff|]. split.
  - intros Hr. unfold step, deliverable.
    rewrite (proj2 Hiff Hr), home_reconcile. destruct f; reflexivity.
  - intros Hr. unfold step, deliverable.
    destruct (editable f (HomePage w)); [|reflexivity].
    exfalso. apply Hr, Hiff. reflexivity.
Qed.

Lemma edits_only_in_generator_witness :
  home (step typed_page (Change GenresInput (lit "techno")))
  = set_genresText (lit "techno") (home typed_page) /\
  step gallery_page (Change GenresInput (lit "techno")) = gallery_page.
Proof.
  split.
  - apply (edits_only_in_generator typed_page GenresInput (lit "techno")).
    reflexivity.
  - apply (edits_only_in_generator gallery_page GenresInput (lit "techno")).
    discriminate.
Defined.

(** ** Back *)

Lemma step_back (w : World) (r : GenerationResult) :
  result (home w) = Some r ->
  step w (Click HBack) = with_gallery None (with_home (set_result None) w).
Proof.
  intros Hr.
  assert (Hc : clickable HBack (HomePage w) = true).
  { apply clickable_gallery_iff. congruence. }
  unfold step, deliverable. rewrite Hc.
  destruct w as [B h gal m ts cs rs pa q la cb].
  unfold reconcile, exec. simpl. destruct gal; reflexivity.
Qed.

(** Back, from the Gallery View, sets [result] to [null], unmounts the
    Gallery View and shows the Generator View again with the form exactly
    as it was left; it makes no request and shows no notification. *)
Theorem back_returns_to_form (w : World) (r : GenerationResult) :
  result (home w) = Some r ->
  let w' := step w (Click HBack) in
  home w' = set_result None (home w) /\
  gallery w' = None /\
  HomePage w' = GeneratorView (set_result None (home w)) /\
  shows_generator (HomePage w') = true /\
  requests w' = requests w /\
  toasts w' = toasts w.
Proof.
  intros Hr w'. subst w'. rewrite (step_back w Hr).
  unfold HomePage. simpl. repeat split.
Qed.

Lemma back_returns_to_form_witness :
  let w' := step gallery_page (Click HBack) in
  result (home w') = None /\ artistsText (home w') = lit "Deadmau5".
Proof.
  intros w'.
  destruct (@back_returns_to_form gallery_page example_result eq_refl)
    as (Hh & _).
  subst w'. rewrite Hh. split; reflexivity.
Defined.

(** ** One call at a time *)

Lemma HomePage_reconcile (w : World) : HomePage (reconcile w) = HomePage w.
Proof.
  unfold HomePage, reconcile, gallery_state.
  destruct (result (home w)) eqn:Hr, (gallery w) as [[i gi]|] eqn:Hg; simpl;
    rewrite ?Hr, ?Hg; reflexivity.
Qed.

Lemma fire_regenerate (w : World) (i : nat) (g : GalleryState)
    (r : GenerationResult) :
  result (home w) = Some r ->
  gallery w = Some (i, g) ->
  exec (fire HRegeneratePrompts) w =
  with_requests
    (requests w ++
     [AxiosPost (API w ++ lit "/regenerate-prompts/" ++ session_id r)])
    (with_gallery (Some (i, mkGallery true (shown_prompts g))) w).
Proof.
  intros Hr Hg.
  destruct w as [B hm gal m ts cs rs pa q la cb]. simpl in Hr, Hg. subst gal.
  unfold exec, fire, bind, gets. simpl. rewrite Hr.
  unfold handleRegeneratePrompts, setRegenerating, axios, update_instance,
    bind, gets, modify.
  simpl. rewrite Nat.eqb_refl. reflexivity.
Qed.

(** Each of the three buttons that start a call is disabled by its own
    click until the call settles: a second click changes nothing, so no
    second request goes out. *)
Theorem second_click_ignored (w : World) (h : Handler) :
  well_formed w ->
  starts_call (Click h) = true ->
  clickable h (HomePage (step w (Click h))) = false /\
  step (step w (Click h)) (Click h) = step w (Click h).
Proof.
  intros (Hc & _) Hh.
  assert (H : clickable h (HomePage (step w (Click h))) = false).
  { unfold step, deliverable.
    destruct (clickable h (HomePage w)) eqn:Hd; [|exact Hd].
    rewrite HomePage_reconcile. unfold react.
    destruct h; try discriminate Hh.
    - apply clickable_spotify_iff in Hd. destruct Hd as (Hr & Hsd & Hl).
      unfold HomePage. simpl. rewrite Hr.
      rewrite generator_offers_connect. simpl. rewrite Hsd. reflexivity.
    - apply clickable_generate_iff in Hd. destruct Hd as (Hr & Hg & Hne).
      rewrite <- nothing_entered_iff in Hne. apply not_true_is_false in Hne.
      unfold HomePage, exec, fire, handleGenerate, bind, gets.
      rewrite Hne. simpl. rewrite Hr.
      rewrite generator_offers_generate. reflexivity.
    - apply clickable_gallery_iff in Hd.
      destruct Hd as (r & Hr & Hi & Hreg).
      destruct (gallery w) as [[i g]|] eqn:Hg.
      + rewrite (fire_regenerate w Hr Hg).
        unfold HomePage, gallery_state. simpl. rewrite Hr.
        rewrite gallery_offers_regenerate. apply andb_false_r.
      + destruct Hc as [_ Hc]. rewrite (Hc eq_refl) in Hr. discriminate Hr. }
  split; [exact H|].
  unfold step at 1. unfold deliverable. rewrite H. reflexivity.
Qed.

Lemma second_click_ignored_witness :
  requests (run typed_page [Click HGenerate; Click HGenerate])
  = requests (run typed_page [Click HGenerate]).
Proof.
  unfold run, fold_left.
  destruct (@second_click_ignored typed_page HGenerate) as [_ E].
  - split; [split; reflexivity|]. split; intros; discriminate.
  - reflexivity.
  - rewrite E. reflexivity.
Defined.

(** ** Prompts belong to the persona they came with *)

Lemma regenerate_for_other_instance (w : World) (i j : nat) (g : GalleryState)
    (p : Settled PromptsData) :
  gallery w = Some (j, g) -> i <> j ->
  gallery (exec (handleRegeneratePrompts_settled i p) w) = gallery w /\
  home (exec (handleRegeneratePrompts_settled i p) w) = home w.
Proof.
  intros Hg Hij. apply Nat.eqb_neq in Hij.
  destruct w as [B hm gal m ts cs rs pa q la cb]. simpl in Hg. subst gal.
  destruct p; unfold exec, handleRegeneratePrompts_settled, try_catch_finally,
    try_finally, try_catch, await, bind, throw, ret, setPrompts,
    setRegenerating, modify, update_instance, toast_success, toast_error,
    toast, console_error; simpl; rewrite ?Hij; simpl; rewrite ?Hij; auto.
Qed.

(** A regenerate response that arrives after the user has gone back and
    generated another persona is not shown: the new Gallery View keeps the
    prompts of its own result. *)
Theorem late_prompts_do_not_reach_new_gallery (w : World) (i : nat)
    (g : GalleryState) (r1 r2 : GenerationResult) (p : Settled PromptsData) :
  well_formed w ->
  result (home w) = Some r1 ->
  gallery w = Some (i, g) ->
  let w' := run w [Click HBack; GenerateSettled (Resolved r2);
                   RegenerateSettled i p] in
  result (home w') = Some r2 /\
  gallery w' = Some (mounts w, mkGallery false (prompts r2)).
Proof.
  intros (_ & Hf & _) Hr Hg w'.
  assert (Hi : i <> mounts w) by (specialize (Hf i g Hg); lia).
  set (w2 := run w [Click HBack; GenerateSettled (Resolved r2)]).
  assert (E2 : result (home w2) = Some r2 /\
               gallery w2 = Some (mounts w, mkGallery false (prompts r2))).
  { subst w2. unfold run, fold_left. rewrite (step_back w Hr).
    destruct w as [B hm gal m ts cs rs pa q la cb].
    split; reflexivity. }
  destruct E2 as [Hr2 Hg2].
  assert (E3 : w' = step w2 (RegenerateSettled i p)) by reflexivity.
  rewrite E3. unfold step, deliverable.
  destruct (@regenerate_for_other_instance w2 i (mounts w) _ p Hg2 Hi)
    as [Hg3 Hh3].
  rewrite home_reconcile. unfold react. rewrite Hh3. split; [exact Hr2|].
  rewrite reconcile_id.
  - rewrite Hg3. exact Hg2.
  - rewrite Hg3, Hh3, Hr2, Hg2. split; discriminate.
Qed.

Lemma late_prompts_do_not_reach_new_gallery_witness :
  let r2 := mkGenerationResult (lit "xyz") example_persona
              [lit "a second persona"] Absent Absent in
  gallery (run gallery_page
             [Click HBack; GenerateSettled (Resolved r2);
              RegenerateSettled 0 (Resolved (mkPromptsData [lit "late"]))])
  = Some (1, mkGallery false [lit "a second persona"]).
Proof.
  intros r2.
  apply (@late_prompts_do_not_reach_new_gallery gallery_page 0
           (mkGallery false (prompts example_result)) example_result r2
           (Resolved (mkPromptsData [lit "late"]))
           gallery_page_well_formed eq_refl eq_refl).
Defined.

(** ** The actions, view by view *)

(** In the Generator View: Generate can be clicked exactly when no
    generation is running and at least one text has a non-whitespace
    character; Connect exactly when no Spotify data is held and no login is
    under way; Clear exactly when Spotify data is held.  None of the three
    can be clicked while the Gallery View is shown, and Connect and Clear
    never both. *)
Theorem generator_actions_available (w : World) :
  (clickable HGenerate (HomePage w) = true <->
   result (home w) = None /\
   generating (home w) = false /\
   ~ (whitespace_only (artistsText (home w)) /\
      whitespace_only (genresText (home w)))) /\
  (clickable HSpotifyConnect (HomePage w) = true <->
   result (home w) = None /\ spotifyData (home w) = None /\
   loading (home w) = false) /\
  (clickable HClearSpotify (HomePage w) = true <->
   result (home w) = None /\ spotifyData (home w) <> None) /\
  clickable HSpotifyConnect (HomePage w) && clickable HClearSpotify (HomePage w)
  = false.
Proof.
  split; [apply clickable_generate_iff | apply clickable_spotify_iff].
Qed.

(** In the Gallery View: Back can always be clicked, and only there.
    Regenerate can be clicked exactly when the result has no generated
    images and no regenerate request is running; the click then marks the
    button busy and posts once to [/regenerate-prompts/] followed by the
    session id of the result on display. *)
Theorem gallery_actions_available (w : World) :
  (clickable HBack (HomePage w) = true <-> result (home w) <> None) /\
  (clickable HRegeneratePrompts (HomePage w) = true <->
   exists r, result (home w) = Some r /\
             non_empty_array (image_urls r) = false /\
             regenerating (gallery_state w r) = false) /\
  (forall i g r,
     clickable HRegeneratePrompts (HomePage w) = true ->
     result (home w) = Some r -> gallery w = Some (i, g) ->
     step w (Click HRegeneratePrompts) =
     with_requests
       (requests w ++
        [AxiosPost (API w ++ lit "/regenerate-prompts/" ++ session_id r)])
       (with_gallery (Some (i, mkGallery true (shown_prompts g))) w)).
Proof.
  destruct (clickable_gallery_iff w) as [Hb Hr].
  split; [exact Hb|]. split; [exact Hr|].
  intros i g r Hc Hres Hg. unfold step, deliverable. rewrite Hc.
  unfold react. rewrite (fire_regenerate w Hres Hg).
  apply reconcile_id. simpl. rewrite Hres. split; discriminate.
Qed.

Lemma gallery_actions_available_witness :
  requests (step gallery_page (Click HRegeneratePrompts)) =
  [AxiosPost (lit "http://localhost:8001/api/regenerate-prompts/abc")].
Proof.
  destruct (gallery_actions_available gallery_page) as (_ & Hiff & Hstep).
  rewrite (Hstep 0 (mkGallery false (prompts example_result)) example_result).
  - reflexivity.
  - apply Hiff. exists example_result. repeat split.
  - reflexivity.
  - reflexivity.
Defined.

(** ** The Spotify login, from click to redirect *)

(** A click on Connect sets the busy flag and requests [/login/spotify]
    once.  When that request resolves, the browser is sent to the returned
    [auth_url]; the busy flag is left set, so that Connect stays disabled
    while the page unloads, and no notification is shown. *)
Theorem connect_flow (w : World) (d : LoginData) :
  well_formed w ->
  clickable HSpotifyConnect (HomePage w) = true ->
  let w1 := step w (Click HSpotifyConnect) in
  let w2 := step w1 (LoginSettled (Resolved d)) in
  requests w1 = requests w ++ [AxiosGet (API w ++ lit "/login/spotify")] /\
  loading (home w1) = true /\
  requests w2 = requests w1 /\
  location_assigned w2 = location_assigned w ++ [auth_url d] /\
  loading (home w2) = true /\
  toasts w2 = toasts w /\
  clickable HSpotifyConnect (HomePage w2) = false.
Proof.
  intros (Hc & _) Hd w1 w2.
  assert (Hiff := Hd). apply clickable_spotify_iff in Hiff.
  destruct Hiff as (Hr & Hsd & Hl).
  assert (Hg : gallery w = None) by (apply Hc, Hr).
  assert (E1 : w1 =
               with_requests (requests w ++ [AxiosGet (API w ++ lit "/login/spotify")])
                 (with_home (set_loading true) w)).
  { subst w1. unfold step, deliverable. rewrite Hd.
    apply reconcile_id. simpl. rewrite Hr, Hg. tauto. }
  assert (E2 : w2 = with_assigned (location_assigned w1 ++ [auth_url d]) w1).
  { subst w2. unfold step, deliverable.
    apply reconcile_id. rewrite E1. simpl. rewrite Hr, Hg. tauto. }
  rewrite E2, E1. simpl. repeat split.
  unfold HomePage. simpl. rewrite Hr.
  rewrite generator_offers_connect. simpl. rewrite Hsd. reflexivity.
Qed.

Lemma connect_flow_witness :
  let w2 := run typed_page
              [Click HSpotifyConnect;
               LoginSettled (Resolved (mkLoginData (lit "https://accounts.spotify.com/authorize")))] in
  location_assigned w2 = [lit "https://accounts.spotify.com/authorize"] /\
  loading (home w2) = true.
Proof.
  intros w2.
  destruct (@connect_flow typed_page
              (mkLoginData (lit "https://accounts.spotify.com/authorize")))
    as (_ & _ & _ & Hnav & Hl & _).
  - split; [split; reflexivity|]. split; intros; discriminate.
  - apply clickable_spotify_iff. repeat split.
  - split; [exact Hnav | exact Hl].
Defined.

(** ** The mount effect fires on a return, and only then *)

(** The mount effect leaves the world untouched exactly when the address
    lacks a non-empty [spotify_connected] or a non-empty [session]
    parameter. *)
Theorem mount_fires_exactly_on_return (w : World) :
  useEffect_mount w = (Normal tt, w) <->
  truthy_opt (URLSearchParams_get (lit "spotify_connected") (location_search w))
  && truthy_opt (URLSearchParams_get (lit "session") (location_search w)) = false.
Proof.
  split; [|apply mount_otherwise].
  intros E.
  destruct (mount_cases w) as [[H _] | (_ & c & S & _ & _ & _ & _ & E')];
    [exact H|].
  exfalso. rewrite E' in E.
  assert (E2 : requests (snd (@Normal unit tt, w)) = requests w) by reflexivity.
  rewrite <- E in E2 at 1. cbn [snd requests] in E2.
  apply (f_equal (@List.length Request)) in E2.
  rewrite length_app in E2. simpl in E2. lia.
Qed.

(** ** What the Gallery View is made of *)

(** The card under the heading of the right column: the prompts card, with
    its Regenerate button, exactly when the result has no generated images,
    the generated-images card otherwise; the uploaded-photos card exactly
    when the result lists uploaded photos; the persona card always. *)
Theorem gallery_cards (B : jsstring) (r : GenerationResult) (g : GalleryState) :
  existsb (has_testid "persona-card") (subtrees (GalleryPage B r g)) = true /\
  existsb (has_testid "uploaded-photos-card") (subtrees (GalleryPage B r g))
    = non_empty_array (uploaded_photos r) /\
  existsb (has_testid "generated-images-card") (subtrees (GalleryPage B r g))
    = non_empty_array (image_urls r) /\
  existsb (has_testid "prompts-card") (subtrees (GalleryPage B r g))
    = negb (non_empty_array (image_urls r)) /\
  existsb (has_testid "regenerate-prompts-btn") (subtrees (GalleryPage B r g))
    = negb (non_empty_array (image_urls r)).
Proof.
  cbv zeta.
  repeat split; rewrite gallery_search by reflexivity;
    change (fun p => has_testid ?id (CopyButton p))
      with (fun _ : jsstring => false);
    rewrite ?existsb_const_false;
    destruct (non_empty_array (uploaded_photos r)),
      (non_empty_array (image_urls r)); reflexivity.
Qed.

Lemma flat_map_subtrees_Elem {A} (F : Node -> list A) (tag : string)
    (attrs : list Attr) (cs : list Node) :
  flat_map F (subtrees (Elem tag attrs cs)) =
  F (Elem tag attrs cs) ++ flat_map (fun c => flat_map F (subtrees c)) cs.
Proof.
  simpl. f_equal.
  induction cs as [|c cs IH]; simpl; [reflexivity|].
  rewrite flat_map_app, IH. reflexivity.
Qed.

Lemma prompt_paragraphs (l : list jsstring) (n : nat) :
  flat_map (fun c => filter (has_tag "p") (subtrees c)) (mapi_from PromptItem n l)
  = map (fun p => Elem "p" [] [Text p]) l.
Proof.
  revert n. induction l as [|p l IH]; intros n; [reflexivity|].
  cbn [mapi_from flat_map map]. rewrite IH. reflexivity.
Qed.

Lemma texts_of_paragraphs (l : list jsstring) :
  flat_map texts (map (fun p => Elem "p" [] [Text p]) l) = l.
Proof.
  induction l as [|p l IH]; [reflexivity|].
  cbn [map flat_map]. rewrite IH. reflexivity.
Qed.

(** The prompts card shows the prompts of the instance's state, each in
    its own paragraph, in order. *)
Lemma prompts_card_paragraphs (g : GalleryState) :
  flat_map texts (by_tag "p" (PromptsCard g)) = shown_prompts g.
Proof.
  unfold by_tag, PromptsCard, mapi.
  repeat (rewrite ?filter_subtrees_Elem, ?filter_subtrees_Text;
          cbn [has_tag String.eqb Ascii.eqb Bool.eqb flat_map app]).
  rewrite prompt_paragraphs, !app_nil_r. apply texts_of_paragraphs.
Qed.

Lemma prompts_card_in_gallery (B : jsstring) (r : GenerationResult)
    (g : GalleryState) :
  non_empty_array (image_urls r) = false ->
  In (PromptsCard g) (subtrees (GalleryPage B r g)).
Proof.
  intros H. unfold GalleryPage. rewrite H.
  eapply subtrees_child; [left; reflexivity|].
  eapply subtrees_child; [right; left; reflexivity|].
  eapply subtrees_child; [right; left; reflexivity|].
  eapply subtrees_child; [apply in_or_app; right; left; reflexivity|].
  apply subtrees_self.
Qed.

(** A generate request that succeeds while the Generator View is shown
    mounts a fresh Gallery View on the response: the busy flag is cleared,
    one success notification is added, no request is made, and, the
    response having no generated images, the prompts on display are the
    response's own, in order. *)
Theorem generate_success_shows_prompts (w : World) (r : GenerationResult) :
  result (home w) = None ->
  gallery w = None ->
  let w' := step w (GenerateSettled (Resolved r)) in
  gallery w' = Some (mounts w, mkGallery false (prompts r)) /\
  mounts w' = S (mounts w) /\
  generating (home w') = false /\
  toasts w' =
    toasts w ++ [(ToastSuccess, lit "DJ Persona generated successfully!")] /\
  requests w' = requests w /\
  (non_empty_array (image_urls r) = false ->
   In (PromptsCard (mkGallery false (prompts r))) (subtrees (HomePage w')) /\
   flat_map texts (by_tag "p" (PromptsCard (mkGallery false (prompts r))))
   = prompts r).
Proof.
  intros Hr Hg w'.
  destruct w as [B h gal m ts cs rs pa q la cb]. simpl in Hr, Hg. subst gal.
  subst w'. unfold step, deliverable, reconcile, exec. simpl.
  repeat split.
  - unfold HomePage. simpl. apply prompts_card_in_gallery. assumption.
  - apply prompts_card_paragraphs.
Qed.

Lemma generate_success_shows_prompts_witness :
  gallery (step typed_page (GenerateSettled (Resolved example_result)))
  = Some (0, mkGallery false [lit "a DJ in neon light"; lit "a DJ behind the decks"]).
Proof.
  apply (@generate_success_shows_prompts typed_page example_result eq_refl eq_refl).
Defined.

(** ** The images the Gallery View loads *)

Lemma image_sources_Text (s : jsstring) : image_sources (Text s) = [].
Proof. reflexivity. Qed.

Lemma image_sources_Elem (tag : string) (attrs : list Attr) (cs : list Node) :
  image_sources (Elem tag attrs cs) =
  match src_of attrs with
  | Some url => [url]
  | None => []
  end ++ flat_map image_sources cs.
Proof. unfold image_sources. apply flat_map_subtrees_Elem. Qed.

Lemma image_sources_mapi_nil {A} (f : A -> nat -> Node) (l : list A) :
  (forall x i, image_sources (f x i) = []) ->
  forall n, flat_map image_sources (mapi_from f n l) = [].
Proof.
  intros H. induction l as [|x l IH]; intros n; simpl; [reflexivity|].
  rewrite H, IH. reflexivity.
Qed.

Lemma image_sources_mapi_map {A} (f : A -> nat -> Node) (s : A -> jsstring)
    (l : list A) :
  (forall x i, image_sources (f x i) = [s x]) ->
  forall n, flat_map image_sources (mapi_from f n l) = map s l.
Proof.
  intros H. induction l as [|x l IH]; intros n; simpl; [reflexivity|].
  rewrite H, IH. reflexivity.
Qed.

Lemma empty_array_items (a : JsField (list jsstring)) :
  non_empty_array a = false -> array_items a = [].
Proof.
  destruct a as [| |[|x l]]; simpl; intros H; try reflexivity. discriminate H.
Qed.

Ltac image_search :=
  repeat (rewrite ?image_sources_Elem, ?image_sources_Text;
          cbn [src_of flat_map app]).

(** The Gallery View loads exactly the uploaded photos and then the
    generated images of the result, each from the backend's static folder
    for the result's session: [/static/uploads/{session_id}/{name}] and
    [/static/generated/{session_id}/{name}].  With neither list, it loads
    no image at all. *)
Theorem gallery_image_sources (B : jsstring) (r : GenerationResult)
    (g : GalleryState) :
  image_sources (GalleryPage B r g) =
  map (fun photo =>
         B ++ lit "/static/uploads/" ++ session_id r ++ lit "/" ++ photo)
    (array_items (uploaded_photos r))
  ++ map (fun imageUrl =>
            B ++ lit "/static/generated/" ++ session_id r ++ lit "/" ++ imageUrl)
       (array_items (image_urls r)).
Proof.
  assert (Hpersona : image_sources (PersonaCard (persona r)) = []).
  { unfold PersonaCard, mapi. image_search.
    rewrite !image_sources_mapi_nil; [reflexivity | |];
      intros x i; reflexivity. }
  assert (Hprompts : image_sources (PromptsCard g) = []).
  { unfold PromptsCard, mapi. image_search.
    rewrite image_sources_mapi_nil; [reflexivity|].
    intros x i. reflexivity. }
  assert (Hup : image_sources (UploadedPhotosCard B r) =
                map (fun photo =>
                       B ++ lit "/static/uploads/" ++ session_id r ++ lit "/" ++ photo)
                  (array_items (uploaded_photos r))).
  { unfold UploadedPhotosCard, mapi. image_search.
    rewrite image_sources_mapi_map
      with (s := fun photo =>
                   B ++ lit "/static/uploads/" ++ session_id r ++ lit "/" ++ photo).
    - rewrite !app_nil_r. reflexivity.
    - intros x i. reflexivity. }
  assert (Hgen : image_sources (GeneratedImagesCard B r) =
                 map (fun imageUrl =>
                        B ++ lit "/static/generated/" ++ session_id r ++ lit "/" ++ imageUrl)
                   (array_items (image_urls r))).
  { unfold GeneratedImagesCard, mapi. image_search.
    rewrite image_sources_mapi_map
      with (s := fun imageUrl =>
                   B ++ lit "/static/generated/" ++ session_id r ++ lit "/" ++ imageUrl).
    - rewrite !app_nil_r. reflexivity.
    - intros x i. reflexivity. }
  unfold GalleryPage.
  destruct (non_empty_array (uploaded_photos r)) eqn:Eu;
    destruct (non_empty_array (image_urls r)) eqn:Ei;
    cbn [when app]; image_search;
    rewrite ?Hpersona, ?Hup, ?Hgen, ?Hprompts;
    rewrite ?(empty_array_items _ Eu), ?(empty_array_items _ Ei);
    cbn [map app]; rewrite ?app_nil_r; reflexivity.
Qed.

(** ** Spotify data arrives, Spotify data is cleared *)

(** When the session request resolves with Spotify data while the
    Generator View is shown, the badge appears, Connect gives way to Clear,
    and both texts are replaced by the data's (an absent or empty text
    blanks the field, whatever had been typed).  Generate is then available
    exactly when no generation is running and the data's texts are not both
    blank. *)
Theorem spotify_data_connects (w : World) (d : SpotifyData) :
  result (home w) = None ->
  let w' := step w (SessionSettled (Resolved (mkSessionData (Has d)))) in
  spotifyData (home w') = Some d /\
  artistsText (home w') = or_empty (artists_text d) /\
  genresText (home w') = or_empty (genres_text d) /\
  shows_spotify_badge (HomePage w') = true /\
  clickable HSpotifyConnect (HomePage w') = false /\
  clickable HClearSpotify (HomePage w') = true /\
  (clickable HGenerate (HomePage w') = true <->
   generating (home w) = false /\
   ~ (whitespace_only (or_empty (artists_text d)) /\
      whitespace_only (or_empty (genres_text d)))).
Proof.
  intros Hr w'.
  set (w1 := exec (fetchSpotifyData_settled (Resolved (mkSessionData (Has d)))) w).
  assert (Hh : home w' = home w1) by apply home_reconcile.
  assert (Hv : HomePage w' = HomePage w1) by apply HomePage_reconcile.
  assert (H1 : home w1 =
               set_genresText (or_empty (genres_text d))
                 (set_artistsText (or_empty (artists_text d))
                    (set_spotifyData (Some d) (home w)))) by reflexivity.
  assert (Hr1 : result (home w1) = None) by (rewrite H1; exact Hr).
  assert (Hs1 : spotifyData (home w1) = Some d) by (rewrite H1; reflexivity).
  rewrite Hh, Hv.
  split; [exact Hs1|]. split; [rewrite H1; reflexivity|].
  split; [rewrite H1; reflexivity|].
  split; [exact (badge_shown_when_connected w1 Hr1 Hs1)|].
  destruct (clickable_spotify_iff w1) as (Hconn & Hclear & _).
  split.
  - destruct (clickable HSpotifyConnect (HomePage w1)); [|reflexivity].
    destruct (proj1 Hconn eq_refl) as (_ & Hx & _). congruence.
  - split.
    + apply Hclear. split; [exact Hr1 | congruence].
    + rewrite clickable_generate_iff. rewrite H1. simpl. tauto.
Qed.

Lemma spotify_data_connects_witness :
  let d := mkSpotifyData (Has [lit "Deadmau5"]) Absent (Has (lit "Deadmau5")) Absent in
  let w' := step typed_page (SessionSettled (Resolved (mkSessionData (Has d)))) in
  genresText (home w') = [] /\ clickable HClearSpotify (HomePage w') = true.
Proof.
  intros d w'.
  destruct (@spotify_data_connects typed_page d eq_refl)
    as (_ & _ & Hg & _ & _ & Hc & _).
  split; [exact Hg | exact Hc].
Defined.

(** Clear forgets the session: once the user has cleared the Spotify data
    and typed artists of their own, Generate posts those artists with an
    empty [session_id] and an empty [genres_text]. *)
Theorem generate_after_clear_has_no_session (w : World) (d : SpotifyData)
    (v : jsstring) :
  well_formed w ->
  result (home w) = None ->
  spotifyData (home w) = Some d ->
  generating (home w) = false ->
  ~ whitespace_only v ->
  let w' := run w [Click HClearSpotify; Change ArtistsInput v; Click HGenerate] in
  requests w' =
    requests w ++
    [AxiosPostForm (API w ++ lit "/generate")
       [ (lit "session_id", []); (lit "artists_text", v);
         (lit "genres_text", []) ]] /\
  sessionId (home w') = None /\
  generating (home w') = true.
Proof.
  intros (Hc & _) Hr Hs Hg Hv w'.
  assert (Hgal : gallery w = None) by (apply Hc, Hr).
  set (w1 := step w (Click HClearSpotify)).
  assert (E1 : w1 = exec clearSpotify w).
  { subst w1. unfold step, deliverable.
    rewrite (proj2 (proj1 (proj2 (clickable_spotify_iff w))))
      by (split; [exact Hr | congruence]).
    apply reconcile_id. simpl. rewrite Hr, Hgal. tauto. }
  set (w2 := step w1 (Change ArtistsInput v)).
  assert (E2 : w2 = exec (setArtistsText v) w1).
  { subst w2. unfold step, deliverable, HomePage.
    rewrite E1. simpl. rewrite Hr, generator_inputs.
    apply reconcile_id. simpl. rewrite Hr, Hgal. tauto. }
  assert (E3 : w' = step w2 (Click HGenerate)) by reflexivity.
  assert (Hn : nothing_entered (home w2) = false).
  { apply not_true_is_false. rewrite nothing_entered_iff.
    rewrite E2, E1. simpl. tauto. }
  assert (Hd : clickable HGenerate (HomePage w2) = true).
  { apply clickable_generate_iff. rewrite <- nothing_entered_iff, Hn.
    rewrite E2, E1. simpl. repeat split; try assumption. discriminate. }
  rewrite E3. unfold step, deliverable. rewrite Hd.
  destruct (reconcile_keeps (exec (react (Click HGenerate)) w2)) as (-> & _).
  rewrite home_reconcile.
  unfold react, fire, handleGenerate, exec, bind, gets. rewrite Hn.
  rewrite E2, E1. simpl. repeat split.
Qed.

Lemma generate_after_clear_has_no_session_witness :
  let d := mkSpotifyData Absent Absent (Has (lit "Deadmau5")) Absent in
  let w := run returned_page
             [Mounted; SessionSettled (Resolved (mkSessionData (Has d)))] in
  sessionId (home w) = Some (lit "abc") /\
  requests (run w [Click HClearSpotify; Change ArtistsInput (lit "Bicep");
                   Click HGenerate]) =
    requests w ++
    [AxiosPostForm (lit "http://localhost:8001/api/generate")
       [ (lit "session_id", []); (lit "artists_text", lit "Bicep");
         (lit "genres_text", []) ]].
Proof.
  intros d w. split; [reflexivity|].
  apply (@generate_after_clear_has_no_session w d (lit "Bicep")).
  - split; [split; reflexivity|]. split.
    + intros i g E. vm_compute in E. discriminate E.
    + intros S E HS. subst S. vm_compute in E. discriminate E.
  - reflexivity.
  - reflexivity.
  - reflexivity.
  - intros H. inversion H as [|c s Hc' Hs]. discriminate Hc'.
Defined.

(** ** Regenerating prompts *)

Lemma regenerate_resolved (i : nat) (d : PromptsData) (w : World) :
  let w1 :=
    update_instance i (fun g => mkGallery (regenerating g) (new_prompts d)) w in
  handleRegeneratePrompts_settled i (Resolved d) w =
  (Normal tt,
   update_instance i (fun g => mkGallery false (shown_prompts g))
     (with_toasts (toasts w1 ++ [(ToastSuccess, lit "New prompts generated!")])
        w1)).
Proof. reflexivity. Qed.

Lemma persona_card_has_no_paragraph (p : Persona) :
  filter (has_tag "p") (subtrees (PersonaCard p)) = [].
Proof.
  unfold PersonaCard, mapi.
  repeat (rewrite ?filter_subtrees_Elem, ?filter_subtrees_Text;
          cbn [has_tag String.eqb Ascii.eqb Bool.eqb flat_map app]).
  rewrite swatches_have_no, style_tags_have_no by reflexivity.
  reflexivity.
Qed.

Lemma uploaded_card_has_no_paragraph (B : jsstring) (r : GenerationResult) :
  filter (has_tag "p") (subtrees (UploadedPhotosCard B r)) = [].
Proof.
  unfold UploadedPhotosCard, mapi.
  repeat (rewrite ?filter_subtrees_Elem, ?filter_subtrees_Text;
          cbn [has_tag String.eqb Ascii.eqb Bool.eqb flat_map app]).
  rewrite flat_map_mapi_from_nil; [reflexivity|].
  intros x i. reflexivity.
Qed.

Lemma images_card_has_no_paragraph (B : jsstring) (r : GenerationResult) :
  filter (has_tag "p") (subtrees (GeneratedImagesCard B r)) = [].
Proof.
  unfold GeneratedImagesCard, mapi.
  repeat (rewrite ?filter_subtrees_Elem, ?filter_subtrees_Text;
          cbn [has_tag String.eqb Ascii.eqb Bool.eqb flat_map app]).
  rewrite flat_map_mapi_from_nil; [reflexivity|].
  intros x i. reflexivity.
Qed.

(** The paragraphs of the whole Gallery View are the ones of the prompts
    card: their texts are the prompts of the instance's state, in order,
    and there is none while generated images take the card's place. *)
Lemma gallery_paragraph_texts (B : jsstring) (r : GenerationResult)
    (g : GalleryState) :
  flat_map texts (by_tag "p" (GalleryPage B r g)) =
  if non_empty_array (image_urls r) then [] else shown_prompts g.
Proof.
  assert (Hprompts : flat_map texts (filter (has_tag "p") (subtrees (PromptsCard g)))
                     = shown_prompts g) by apply prompts_card_paragraphs.
  unfold by_tag, GalleryPage.
  destruct (non_empty_array (uploaded_photos r));
    destruct (non_empty_array (image_urls r));
    cbn [when app];
    repeat (rewrite ?filter_subtrees_Elem, ?filter_subtrees_Text;
            cbn [has_tag String.eqb Ascii.eqb Bool.eqb flat_map app]);
    rewrite ?persona_card_has_no_paragraph, ?uploaded_card_has_no_paragraph,
      ?images_card_has_no_paragraph;
    cbn [app]; rewrite ?app_nil_r; try reflexivity; exact Hprompts.
Qed.

(** C6.  For a mounted Gallery View that displays the prompts of [g]:
    when the regenerate-prompts request fails, the prompts on display stay
    the same, one error notification is added and no further request is
    issued; when it succeeds, the prompts on display are the ones of the
    response.  What is on display is read off the rendered view: the texts
    of its paragraphs, in order.  Either way the busy flag of the button is
    cleared. *)
Theorem C6_regenerate_outcome (w : World) (i : nat) (g : GalleryState) :
  gallery w = Some (i, g) ->
  (forall e,
     let w' := exec (handleRegeneratePrompts_settled i (Rejected e)) w in
     completes (handleRegeneratePrompts_settled i (Rejected e)) w /\
     gallery w' = Some (i, mkGallery false (shown_prompts g)) /\
     toasts w' = toasts w ++ [(ToastError, lit "Failed to regenerate prompts")] /\
     requests w' = requests w /\
     home w' = home w /\
     forall r, result (home w) = Some r ->
       HomePage w' =
       GalleryPage (backend_url w) r (mkGallery false (shown_prompts g)) /\
       (non_empty_array (image_urls r) = false ->
        flat_map texts (by_tag "p" (HomePage w)) = shown_prompts g /\
        flat_map texts (by_tag "p" (HomePage w')) = shown_prompts g)) /\
  (forall d,
     let w' := exec (handleRegeneratePrompts_settled i (Resolved d)) w in
     completes (handleRegeneratePrompts_settled i (Resolved d)) w /\
     gallery w' = Some (i, mkGallery false (new_prompts d)) /\
     toasts w' = toasts w ++ [(ToastSuccess, lit "New prompts generated!")] /\
     requests w' = requests w /\
     home w' = home w /\
     forall r, result (home w) = Some r ->
       HomePage w' =
       GalleryPage (backend_url w) r (mkGallery false (new_prompts d)) /\
       (non_empty_array (image_urls r) = false ->
        flat_map texts (by_tag "p" (HomePage w)) = shown_prompts g /\
        flat_map texts (by_tag "p" (HomePage w')) = new_prompts d)).
Proof.
  intros Hgal.
  assert (Hbefore : forall r, result (home w) = Some r ->
            non_empty_array (image_urls r) = false ->
            flat_map texts (by_tag "p" (HomePage w)) = shown_prompts g).
  { intros r Hr Hi. unfold HomePage, gallery_state. rewrite Hr, Hgal.
    rewrite gallery_paragraph_texts, Hi. reflexivity. }
  destruct w as [B h gal m ts cs rs pa q la cb]; simpl in Hgal; subst gal.
  split.
  - intros e w'. subst w'. unfold exec, completes.
    rewrite regenerate_rejected. unfold update_instance. simpl.
    rewrite Nat.eqb_refl. simpl.
    split; [exists tt; reflexivity|].
    split; [reflexivity|]. split; [reflexivity|].
    split; [reflexivity|]. split; [reflexivity|].
    intros r Hr. split.
    + unfold HomePage. simpl. rewrite Hr. reflexivity.
    + intros Hi. split; [apply (Hbefore r); assumption|].
      unfold HomePage. simpl. rewrite Hr.
      rewrite gallery_paragraph_texts, Hi. reflexivity.
  - intros d w'. subst w'. unfold exec, completes.
    rewrite regenerate_resolved. unfold update_instance. simpl.
    rewrite Nat.eqb_refl. simpl. rewrite Nat.eqb_refl. simpl.
    split; [exists tt; reflexivity|].
    split; [reflexivity|]. split; [reflexivity|].
    split; [reflexivity|]. split; [reflexivity|].
    intros r Hr. split.
    + unfold HomePage. simpl. rewrite Hr. reflexivity.
    + intros Hi. split; [apply (Hbefore r); assumption|].
      unfold HomePage. simpl. rewrite Hr.
      rewrite gallery_paragraph_texts, Hi. reflexivity.
Qed.

Lemma C6_regenerate_outcome_witness :
  flat_map texts
    (by_tag "p"
       (HomePage
          (exec (handleRegeneratePrompts_settled 0 (Rejected (HttpError 500)))
             gallery_page)))
  = [lit "a DJ in neon light"; lit "a DJ behind the decks"] /\
  flat_map texts
    (by_tag "p"
       (HomePage
          (exec (handleRegeneratePrompts_settled 0
                   (Resolved (mkPromptsData [lit "a DJ at sunrise"])))
             gallery_page)))
  = [lit "a DJ at sunrise"].
Proof.
  destruct (@C6_regenerate_outcome gallery_page 0
              (mkGallery false (prompts example_result)) eq_refl)
    as [Hfail Hok].
  destruct (Hfail (HttpError 500)) as (_ & _ & _ & _ & _ & Hshown1).
  destruct (Hok (mkPromptsData [lit "a DJ at sunrise"]))
    as (_ & _ & _ & _ & _ & Hshown2).
  destruct (Hshown1 example_result eq_refl) as [_ H1].
  destruct (Hshown2 example_result eq_refl) as [_ H2].
  split.
  - exact (proj2 (H1 eq_refl)).
  - exact (proj2 (H2 eq_refl)).
Defined.
